(** * Streaming speech-to-text pipeline: tokenizer, energy gate, windowing
      and the loops of [RealTimeStreamer]

    A shallow embedding of the notebook [Untitled67.ipynb]:
    - [CharTokenizer], the character codec;
    - [RealTimeStreamer]: windowing with [range], [process_audio_chunk]
      behind the energy gate, the worker loop of the file mode, the data loop,
      the generator [process_from_microphone_data], the batch loop
      [process_uploaded_audio], the result queue and the stop flag;
    - [LibriSpeechDataset.__getitem__], [collate_fn] and the targets that
      [train_epoch] builds for the CTC loss.

    Conventions of the embedding.
    - Python [int] is [Z]; a [str] is a [string] of ASCII characters; the
      two dictionaries of the tokenizer are [gmap]s; tensors of one or two
      dimensions are lists and lists of lists.
    - An audio sample is the rational number ([Q]) its float stands for;
      no arithmetic is done on samples.  A timestamp is the exact quotient
      of the offset by the sample rate.
    - The energy gate [_detect_speech_energy] evaluates
      [np.sum(audio_chunk ** 2) / len(audio_chunk) > 0.001] in the
      floating-point arithmetic of numpy, which is outside this embedding:
      the gate is a parameter of the streamer section, a function from a
      chunk to a truth value, and nothing depends on how it decides.
    - The acoustic model is a parameter [model] of the streamer section: a
      function from a chunk to a matrix of per-frame scores.
    - An exception is a [None] result (or an outcome of its own for the
      generator).
    - The notebook export shows the quotes of [chars] typographically; the
      vocabulary is read as the 28 ASCII characters space, A to Z and the
      apostrophe (28 is also the default [vocab_size] of the model). *)

From Stdlib Require Import ZArith QArith List String Ascii Lia Bool Sorted.
From stdpp Require Import base gmap strings sorting.
Import ListNotations.

Open Scope Z_scope.

(** ** The Python built-ins the notebook relies on *)

Module Py.

(** [len(l)] *)
Definition len {A} (l : list A) : Z := Z.of_nat (length l).

(** [str.upper], on ASCII text: the letters a-z move to A-Z. *)
Definition upper_char (c : ascii) : ascii :=
  let n := nat_of_ascii c in
  if (97 <=? n)%nat && (n <=? 122)%nat then ascii_of_nat (n - 32) else c.

Fixpoint upper (s : string) : string :=
  match s with
  | EmptyString => EmptyString
  | String c s' => String (upper_char c) (upper s')
  end.

(** Texts of ASCII characters, the texts this embedding covers: on them
    [str.upper] gives one character per character. *)
Definition is_ascii (c : ascii) : bool := (nat_of_ascii c <? 128)%nat.

Fixpoint ascii_text (s : string) : bool :=
  match s with
  | EmptyString => true
  | String c s' => is_ascii c && ascii_text s'
  end.

(** [str.isspace] of one character: tab, line feed, vertical tab, form
    feed, carriage return, the four separators 28-31 and the space. *)
Definition isspace (c : ascii) : bool :=
  let n := nat_of_ascii c in
  ((9 <=? n)%nat && (n <=? 13)%nat) || ((28 <=? n)%nat && (n <=? 32)%nat).

Fixpoint lstrip (s : string) : string :=
  match s with
  | EmptyString => EmptyString
  | String c s' => if isspace c then lstrip s' else s
  end.

Fixpoint rstrip (s : string) : string :=
  match s with
  | EmptyString => EmptyString
  | String c s' =>
      match rstrip s' with
      | EmptyString => if isspace c then EmptyString else String c EmptyString
      | r => String c r
      end
  end.

(** A string without any white space. *)
Fixpoint no_space (s : string) : bool :=
  match s with
  | EmptyString => true
  | String c s' => negb (isspace c) && no_space s'
  end.

(** [str.strip()] *)
Definition strip (s : string) : string := rstrip (lstrip s).

(** [''.join(parts)] *)
Definition join (parts : list string) : string :=
  fold_right String.append EmptyString parts.

(** [enumerate(s)] *)
Fixpoint enumerate_from {A} (i : Z) (l : list A) : list (Z * A) :=
  match l with
  | [] => []
  | x :: l' => (i, x) :: enumerate_from (i + 1) l'
  end.

Definition enumerate {A} (l : list A) : list (Z * A) := enumerate_from 0 l.

(** [range(start, stop, step)]: [None] stands for the [ValueError] of a
    zero step.  The number of elements is the one CPython computes. *)
Definition range_len (start stop step : Z) : Z :=
  if 0 <? step then
    if start <? stop then (stop - start - 1) / step + 1 else 0
  else
    if stop <? start then (start - stop - 1) / (- step) + 1 else 0.

Definition range (start stop step : Z) : option (list Z) :=
  if step =? 0 then None
  else Some (map (fun k => start + Z.of_nat k * step)
                 (seq 0 (Z.to_nat (range_len start stop step)))).

(** A slice bound, as [l[lo:hi]] normalises it: a negative bound counts
    from the end, and the result is clamped to [0, len]. *)
Definition clamp_index (n i : Z) : Z :=
  let j := if i <? 0 then i + n else i in
  Z.max 0 (Z.min n j).

(** [l[lo:hi]] *)
Definition slice {A} (l : list A) (lo hi : Z) : list A :=
  let n := len l in
  let a := clamp_index n lo in
  let b := clamp_index n hi in
  firstn (Z.to_nat (b - a)) (skipn (Z.to_nat a) l).

End Py.

(** ** [class CharTokenizer] *)

Module CharTokenizer.

Definition chars : string := " ABCDEFGHIJKLMNOPQRSTUVWXYZ'".

(** [{char: idx for idx, char in enumerate(self.chars)}]: a later
    binding of a key replaces an earlier one. *)
Definition char_to_idx : gmap ascii Z :=
  foldl (fun m p => <[snd p := fst p]> m) ∅
        (Py.enumerate (list_ascii_of_string chars)).

(** [{idx: char for idx, char in enumerate(self.chars)}] *)
Definition idx_to_char : gmap Z ascii :=
  foldl (fun m p => <[fst p := snd p]> m) ∅
        (Py.enumerate (list_ascii_of_string chars)).

Definition blank_idx : Z := 0.

Definition vocab_size : Z := Z.of_nat (String.length chars).

(** [self.char_to_idx[' ']]: the key is bound (lemma
    [char_to_idx_space]), so the subscript does not raise. *)
Definition space_idx : Z := default 0 (char_to_idx !! " "%char).

(** [encode]: upper-case, then look every character up, with the index
    of the space for a character that is not in the table. *)
Definition encode (text : string) : list Z :=
  map (fun char => default space_idx (char_to_idx !! char))
      (list_ascii_of_string (Py.upper text)).

(** [self.idx_to_char.get(idx, '')] *)
Definition idx_to_char_get (idx : Z) : string :=
  match idx_to_char !! idx with
  | Some c => String c EmptyString
  | None => EmptyString
  end.

(** The local list [chars] of [decode]: the frames that are not
    [blank_idx], each mapped to its character (nothing for an unknown
    index). *)
Definition decode_chars (indices : list Z) : list string :=
  map idx_to_char_get (filter (fun idx => idx <> blank_idx) indices).

(** [decode]: [''.join(chars).strip()] *)
Definition decode (indices : list Z) : string :=
  Py.strip (Py.join (decode_chars indices)).

(** Texts over the vocabulary, and a text without its spaces. *)
Definition vocab_text (text : string) : Prop :=
  Forall (fun c => In c (list_ascii_of_string chars)) (list_ascii_of_string text).

Fixpoint remove_spaces (s : string) : string :=
  match s with
  | EmptyString => EmptyString
  | String c s' =>
      if Ascii.eqb c " " then remove_spaces s' else String c (remove_spaces s')
  end.

(** The visible characters other than the space. *)
Definition letters : string := "ABCDEFGHIJKLMNOPQRSTUVWXYZ'".

(** The characters [decode] can produce: A to Z and the apostrophe. *)
Definition is_letter (c : ascii) : bool :=
  let n := nat_of_ascii c in
  ((65 <=? n)%nat && (n <=? 90)%nat) || (n =? 39)%nat.

Fixpoint keep_letters (s : string) : string :=
  match s with
  | EmptyString => EmptyString
  | String c s' =>
      if is_letter c then String c (keep_letters s') else keep_letters s'
  end.

(** Texts made of letters of either case and apostrophes. *)
Fixpoint spaceless (s : string) : bool :=
  match s with
  | EmptyString => true
  | String c s' => is_letter (Py.upper_char c) && spaceless s'
  end.

(** The labels that stand for a letter: 1 to 27. *)
Definition is_letter_idx (idx : Z) : bool := (1 <=? idx) && (idx <=? 27).

End CharTokenizer.

(** ** [class RealTimeStreamer] *)

Module RealTimeStreamer.

(** [queue.Queue]: [put] appends at the back, [get_nowait] takes from the
    front and raises [queue.Empty] ([None] here) on an empty queue. *)
Definition put {A} (q : list A) (x : A) : list A := q ++ [x].

Definition get_nowait {A} (q : list A) : option (A * list A) :=
  match q with
  | [] => None
  | x :: q' => Some (x, q')
  end.

(** The fields of the object that the streaming methods read or write.
    [chunk_size] and [overlap_size] are the two integers [__init__]
    computes from the durations.  The last two fields are ghost state:
    [model_calls] logs every chunk handed to [self.model], and
    [publish_log] logs every [result_queue.put] of the worker together
    with the offset of the window it comes from. *)
Record streamer : Type := Streamer {
  chunk_size : Z;
  overlap_size : Z;
  sample_rate : Z;
  result_queue : list string;
  is_streaming : bool;
  model_calls : list (list Q);
  publish_log : list (Z * string)
}.

(** [__init__], after the two conversions to [int]. *)
Definition init (chunk_size overlap_size : Z) : streamer :=
  {| chunk_size := chunk_size;
     overlap_size := overlap_size;
     sample_rate := 16000;
     result_queue := [];
     is_streaming := false;
     model_calls := [];
     publish_log := [] |}.

Definition set_is_streaming (b : bool) (st : streamer) : streamer :=
  {| chunk_size := chunk_size st;
     overlap_size := overlap_size st;
     sample_rate := sample_rate st;
     result_queue := result_queue st;
     is_streaming := b;
     model_calls := model_calls st;
     publish_log := publish_log st |}.

Definition set_result_queue (q : list string) (st : streamer) : streamer :=
  {| chunk_size := chunk_size st;
     overlap_size := overlap_size st;
     sample_rate := sample_rate st;
     result_queue := q;
     is_streaming := is_streaming st;
     model_calls := model_calls st;
     publish_log := publish_log st |}.

(** The model is entered with [chunk]. *)
Definition log_model_call (chunk : list Q) (st : streamer) : streamer :=
  {| chunk_size := chunk_size st;
     overlap_size := overlap_size st;
     sample_rate := sample_rate st;
     result_queue := result_queue st;
     is_streaming := is_streaming st;
     model_calls := model_calls st ++ [chunk];
     publish_log := publish_log st |}.

(** [self.result_queue.put(transcription)], for the window at offset [i]. *)
Definition publish (i : Z) (transcription : string) (st : streamer) : streamer :=
  {| chunk_size := chunk_size st;
     overlap_size := overlap_size st;
     sample_rate := sample_rate st;
     result_queue := put (result_queue st) transcription;
     is_streaming := is_streaming st;
     model_calls := model_calls st;
     publish_log := publish_log st ++ [(i, transcription)] |}.

(** Truth value of a [str] in a condition: non-empty. *)
Definition truthy (s : string) : bool :=
  match s with
  | EmptyString => false
  | String _ _ => true
  end.

(** [torch.argmax] over one row of scores: the position of the first
    greatest entry (0 on an empty row, which the model never returns:
    its rows have [vocab_size] entries). *)
Fixpoint argmax_from (i best : Z) (bestv : Q) (row : list Q) : Z :=
  match row with
  | [] => best
  | v :: row' =>
      if negb (Qle_bool v bestv)
      then argmax_from (i + 1) i v row'
      else argmax_from (i + 1) best bestv row'
  end.

Definition argmax (row : list Q) : Z :=
  match row with
  | [] => 0
  | v :: row' => argmax_from 1 0 v row'
  end.

(** [self.stop_streaming()] *)
Definition stop_streaming (st : streamer) : streamer :=
  set_is_streaming false st.

(** [self.get_latest_transcription()]: the [queue.Empty] of an empty
    queue is caught and [None] is returned. *)
Definition get_latest_transcription (st : streamer) : option string * streamer :=
  match get_nowait (result_queue st) with
  | Some (r, q') => (Some r, set_result_queue q' st)
  | None => (None, st)
  end.

(** Two states with the same configuration. *)
Definition same_config (st st' : streamer) : Prop :=
  chunk_size st' = chunk_size st /\
  overlap_size st' = overlap_size st /\
  sample_rate st' = sample_rate st.

Section WithModel.

(** [self.model(audio_chunk)[0]]: one row of scores per frame. *)
Variable model : list Q -> list (list Q).

(** [self._detect_speech_energy(audio_chunk)]: the answer of the gate,
    [np.sum(audio_chunk ** 2) / len(audio_chunk) > 0.001] as numpy
    evaluates it. *)
Variable _detect_speech_energy : list Q -> bool.

(** [torch.argmax(log_probs, dim=-1)[0]], then [tokenizer.decode]. *)
Definition greedy_decode (log_probs : list (list Q)) : string :=
  CharTokenizer.decode (map argmax log_probs).

(** [process_audio_chunk] *)
Definition process_audio_chunk (st : streamer) (audio_chunk : list Q)
  : string * streamer :=
  if Py.len audio_chunk <? chunk_size st then (EmptyString, st)
  else
    let log_probs := model audio_chunk in
    (greedy_decode log_probs, log_model_call audio_chunk st).

(** The body of the worker's loop for the window at offset [i], after
    the test of [is_streaming]; the final [time.sleep] changes nothing
    in the state. *)
Definition realtime_body (waveform : list Q) (st : streamer) (i : Z) : streamer :=
  let chunk := Py.slice waveform i (i + chunk_size st) in
  let is_speech := _detect_speech_energy chunk in
  if is_speech then
    let (transcription, st1) := process_audio_chunk st chunk in
    if truthy (Py.strip transcription) then publish i transcription st1
    else st1
  else st.

(** The [for] loop of [_simulate_realtime_processing] over the offsets
    that [range] yields, run without interference: it breaks as soon as
    [is_streaming] is false at the top of an iteration. *)
Fixpoint realtime_loop (waveform : list Q) (offsets : list Z) (st : streamer)
  : streamer :=
  match offsets with
  | [] => st
  | i :: rest =>
      if negb (is_streaming st) then st
      else realtime_loop waveform rest (realtime_body waveform st i)
  end.

(** The offsets of [_simulate_realtime_processing]:
    [range(0, len(waveform) - self.chunk_size, step_size)]. *)
Definition realtime_offsets (st : streamer) (waveform : list Q) : option (list Z) :=
  let step_size := chunk_size st - overlap_size st in
  Py.range 0 (Py.len waveform - chunk_size st) step_size.

(** [_simulate_realtime_processing]; [None] is the [ValueError] of
    [range] when the step is zero. *)
Definition _simulate_realtime_processing (st : streamer) (waveform : list Q)
  : option streamer :=
  match realtime_offsets st waveform with
  | None => None
  | Some offsets => Some (realtime_loop waveform offsets st)
  end.

(** The windows the worker's loop cuts when it is never stopped: the
    offset and the samples of each. *)
Definition realtime_windows (st : streamer) (waveform : list Q)
  : option (list (Z * list Q)) :=
  match realtime_offsets st waveform with
  | None => None
  | Some offsets =>
      Some (map (fun i => (i, Py.slice waveform i (i + chunk_size st))) offsets)
  end.

(** One iteration of the loop of [process_uploaded_audio]: the state and
    the list [results]. *)
Definition uploaded_body (waveform : list Q)
    (acc : streamer * list (Q * string)) (i : Z) : streamer * list (Q * string) :=
  let (st, results) := acc in
  let chunk := Py.slice waveform i (i + chunk_size st) in
  if _detect_speech_energy chunk then
    let (transcription, st1) := process_audio_chunk st chunk in
    if truthy (Py.strip transcription) then
      let timestamp := (inject_Z i / inject_Z (sample_rate st))%Q in
      (st1, results ++ [(timestamp, transcription)])
    else (st1, results)
  else (st, results).

(** [process_uploaded_audio], from the loaded (and resampled) waveform
    on: the list of [(timestamp, transcription)] and the final state. *)
Definition process_uploaded_audio (st : streamer) (waveform : list Q)
  : option (list (Q * string) * streamer) :=
  let step_size := chunk_size st / 2 in
  match Py.range 0 (Py.len waveform - chunk_size st) step_size with
  | None => None
  | Some offsets =>
      let (st', results) := fold_left (uploaded_body waveform) offsets (st, []) in
      Some (results, st')
  end.

(** [_process_audio_loop_from_data]: the loop of the worker with the step
    [chunk_size // 2] and without the sleep; its body is the body of the
    worker's loop. *)
Definition _process_audio_loop_from_data (st : streamer) (audio_data : list Q)
  : option streamer :=
  let step_size := chunk_size st / 2 in
  match Py.range 0 (Py.len audio_data - chunk_size st) step_size with
  | None => None
  | Some offsets => Some (realtime_loop audio_data offsets st)
  end.

(** [process_from_microphone_data] is a generator.  Its object is either
    not started yet, or suspended at a [yield] with the offsets still to
    come, or finished; a call of [next] ends with a yielded value, with
    [StopIteration], or with the [ValueError] of [range]. *)
Inductive generator : Type :=
| Created
| Suspended (pending : list Z)
| Exhausted.

Inductive outcome : Type :=
| Yield (transcription : string)
| StopIteration
| ValueError.

(** The [for] loop of the generator from the offsets [offsets] on, up to
    the next [yield] or to the end of the loop. *)
Fixpoint microphone_resume (audio_data : list Q) (offsets : list Z) (st : streamer)
  : outcome * generator * streamer :=
  match offsets with
  | [] => (StopIteration, Exhausted, st)
  | i :: rest =>
      let chunk := Py.slice audio_data i (i + chunk_size st) in
      let is_speech := _detect_speech_energy chunk in
      if is_speech then
        let (transcription, st1) := process_audio_chunk st chunk in
        if truthy (Py.strip transcription) then (Yield transcription, Suspended rest, st1)
        else microphone_resume audio_data rest st1
      else microphone_resume audio_data rest st
  end.

(** One call of [next] on the generator: the first one sets [is_streaming]
    and evaluates [range]. *)
Definition microphone_next (audio_data : list Q) (g : generator) (st : streamer)
  : outcome * generator * streamer :=
  match g with
  | Created =>
      let st1 := set_is_streaming true st in
      match Py.range 0 (Py.len audio_data - chunk_size st1) (chunk_size st1 / 2) with
      | None => (ValueError, Exhausted, st1)
      | Some offsets => microphone_resume audio_data offsets st1
      end
  | Suspended pending => microphone_resume audio_data pending st
  | Exhausted => (StopIteration, Exhausted, st)
  end.

(** At most [n] calls of [next], as a [for] loop over the generator that
    is left after [n] values makes them: the values yielded, and the
    generator and the state afterwards. *)
Fixpoint microphone_take (n : nat) (audio_data : list Q) (g : generator) (st : streamer)
  : list string * generator * streamer :=
  match n with
  | O => ([], g, st)
  | S n' =>
      match microphone_next audio_data g st with
      | (Yield transcription, g', st') =>
          let '(rest, g'', st'') := microphone_take n' audio_data g' st' in
          (transcription :: rest, g'', st'')
      | (_, g', st') => ([], g', st')
      end
  end.

(** What the loops make of the window at offset [i]: the transcription
    they publish, if the gate lets the window through and the stripped
    transcription is not empty. *)
Definition window (waveform : list Q) (st : streamer) (i : Z) : list Q :=
  Py.slice waveform i (i + chunk_size st).

Definition window_result (waveform : list Q) (st : streamer) (i : Z)
  : option string :=
  let chunk := window waveform st i in
  if _detect_speech_energy chunk then
    let transcription := fst (process_audio_chunk st chunk) in
    if truthy (Py.strip transcription) then Some transcription else None
  else None.

(** Over a list of offsets: the publications [(offset, text)] in the
    order of the offsets, and the chunks that reach the model. *)
Definition publications (waveform : list Q) (st : streamer) (offsets : list Z)
  : list (Z * string) :=
  flat_map (fun i => match window_result waveform st i with
                     | Some transcription => [(i, transcription)]
                     | None => []
                     end) offsets.

Definition dispatched (waveform : list Q) (st : streamer) (offsets : list Z)
  : list (list Q) :=
  List.filter (fun chunk => _detect_speech_energy chunk
                            && (chunk_size st <=? Py.len chunk))
              (map (window waveform st) offsets).

(** The entry of [results] for a publication: its timestamp and text. *)
Definition stamp (st : streamer) (p : Z * string) : Q * string :=
  ((inject_Z (fst p) / inject_Z (sample_rate st))%Q, snd p).

(** *** The worker thread and its environment

    The worker runs [_simulate_realtime_processing] on its own thread
    while the caller uses the same object.  The worker is either at the
    top of the loop with the offsets still to come, or past the test of
    [is_streaming] with the offset of the window it is about to cut, or
    out of the loop. *)
Inductive worker : Type :=
| AtTop (pending : list Z)
| InBody (i : Z) (pending : list Z)
| Finished.

Record system : Type := System {
  obj : streamer;
  pc : worker
}.

Inductive event : Type :=
| WEnter (i : Z)      (* the flag was read as true, the window at [i] is next *)
| WBody (i : Z)       (* the window at [i] was cut, gated and processed *)
| WExit               (* the loop was left: [break], or no offset remains *)
| CStop               (* the caller ran [stop_streaming] *)
| CStart              (* the caller set [is_streaming = True] again *)
| CPoll (r : option string).  (* the caller ran [get_latest_transcription] *)

Inductive step (waveform : list Q) : system -> event -> system -> Prop :=
| step_exhausted st :
    step waveform (System st (AtTop [])) WExit (System st Finished)
| step_break st i rest :
    is_streaming st = false ->
    step waveform (System st (AtTop (i :: rest))) WExit (System st Finished)
| step_enter st i rest :
    is_streaming st = true ->
    step waveform (System st (AtTop (i :: rest))) (WEnter i) (System st (InBody i rest))
| step_body st i rest :
    step waveform (System st (InBody i rest)) (WBody i)
         (System (realtime_body waveform st i) (AtTop rest))
| step_stop st p :
    step waveform (System st p) CStop (System (stop_streaming st) p)
| step_start st p :
    step waveform (System st p) CStart (System (set_is_streaming true st) p)
| step_poll st p :
    step waveform (System st p) (CPoll (fst (get_latest_transcription st)))
         (System (snd (get_latest_transcription st)) p).

Inductive steps (waveform : list Q) : system -> list event -> system -> Prop :=
| steps_nil s : steps waveform s [] s
| steps_cons s e s1 tr s2 :
    step waveform s e s1 -> steps waveform s1 tr s2 ->
    steps waveform s (e :: tr) s2.

(** The offsets the worker still has in front of it. *)
Definition pending (p : worker) : list Z :=
  match p with
  | AtTop rest => rest
  | InBody i rest => i :: rest
  | Finished => []
  end.


Definition is_start (e : event) : bool :=
  match e with CStart => true | _ => false end.

Definition is_stop (e : event) : bool :=
  match e with CStop => true | _ => false end.

(** The results the caller obtained, in the order of its polls. *)
Fixpoint polled (tr : list event) : list string :=
  match tr with
  | [] => []
  | CPoll (Some r) :: tr' => r :: polled tr'
  | _ :: tr' => polled tr'
  end.

End WithModel.

End RealTimeStreamer.

(** ** [LibriSpeechDataset.__getitem__], [collate_fn] and the targets of [train_epoch] *)

Module Training.

(** A sample as [__getitem__] returns it: the waveform cut to at most
    [max_length] samples, the labels of the transcript, the transcript. *)
Definition sample : Type := (list Q * list Z * string)%type.

Definition getitem (max_length : Z) (waveform : list Q) (transcript : string) : sample :=
  let waveform :=
    if max_length <? Py.len waveform then Py.slice waveform 0 max_length else waveform in
  let labels := CharTokenizer.encode transcript in
  (waveform, labels, transcript).

(** [max(len(r) for r in rows)]: [None] is the [ValueError] of an empty
    sequence. *)
Definition max_len {A} (rows : list (list A)) : option Z :=
  match rows with
  | [] => None
  | r :: rs => Some (fold_left Z.max (map Py.len rs) (Py.len r))
  end.

(** A row of the zero tensor after [padded[i, :len(row)] = row]. *)
Definition pad {A} (zero : A) (n : Z) (row : list A) : list A :=
  row ++ repeat zero (Z.to_nat (n - Py.len row)).

(** [collate_fn]; an empty batch raises ([None]). *)
Definition collate_fn (batch : list sample)
  : option (list (list Q) * list (list Z) * list string) :=
  let waveforms := map (fun s => fst (fst s)) batch in
  let labels := map (fun s => snd (fst s)) batch in
  let transcripts := map snd batch in
  match max_len waveforms, max_len labels with
  | Some max_waveform_len, Some max_label_len =>
      Some (map (pad 0%Q max_waveform_len) waveforms,
            map (pad 0 max_label_len) labels,
            transcripts)
  | _, _ => None
  end.

(** [label[label != 0]] *)
Definition valid_tokens (label : list Z) : list Z :=
  List.filter (fun x => negb (x =? 0)) label.

(** [torch.count_nonzero(label).item()] *)
Definition count_nonzero (label : list Z) : Z :=
  Py.len (List.filter (fun x => negb (x =? 0)) label).

(** The loop that builds [labels_flat]. *)
Definition labels_flat (labels : list (list Z)) : list Z :=
  fold_left (fun acc label =>
               let valid_tokens := valid_tokens label in
               if 0 <? Py.len valid_tokens then acc ++ valid_tokens
               else acc ++ [0])
            labels [].

(** [target_lengths], after [torch.clamp(target_lengths, min=1)]. *)
Definition target_lengths (labels : list (list Z)) : list Z :=
  map (fun label => Z.max 1 (count_nonzero label)) labels.

(** [sum] of a list of integers. *)
Definition total (l : list Z) : Z := fold_right Z.add 0 l.

(** The tokens one row contributes to [labels_flat]. *)
Definition segment (label : list Z) : list Z :=
  if 0 <? Py.len (valid_tokens label) then valid_tokens label else [0].

End Training.

(** ** Stub models and sample buffers used by the examples *)

Module Examples.

(** A row of scores over the 28 labels whose greatest entry is at [k]. *)
Definition one_hot (k : Z) : list Q :=
  map (fun j => if Z.of_nat j =? k then 0%Q else (-1)%Q) (seq 0 28).

(** A matrix whose per-frame argmax is the given label sequence. *)
Definition frames_of (ids : list Z) : list (list Q) := map one_hot ids.

(** The frames blank, H, H, I, blank. *)
Definition hhi_frames : list (list Q) := frames_of [0; 8; 8; 9; 0].

(** A stub model that answers blank, H, I, blank on every chunk. *)
Definition hi_model (chunk : list Q) : list (list Q) := frames_of [0; 8; 9; 0].

(** A stub model that only ever answers blank frames. *)
Definition blank_model (chunk : list Q) : list (list Q) := frames_of [0; 0].

(** Buffers of [n] samples of amplitude one, and of silence. *)
Definition loud (n : nat) : list Q := repeat 1%Q n.
Definition silence (n : nat) : list Q := repeat 0%Q n.

(** A stub gate for the examples: it lets a chunk through when one of its
    samples is not zero.  On the buffers above it answers as the gate of
    the notebook does: the energy of [loud n] is one, that of [silence n]
    is zero. *)
Definition stub_gate (chunk : list Q) : bool :=
  existsb (fun x => negb (Qeq_bool x 0)) chunk.

(** A streamer with chunks of four samples and an overlap of two, as
    [simulate_streaming_from_file] leaves it: [is_streaming] is set. *)
Definition small_streamer : RealTimeStreamer.streamer :=
  RealTimeStreamer.set_is_streaming true (RealTimeStreamer.init 4 2).

End Examples.

(** * Properties *)

Import CharTokenizer.

(** ** The tokenizer *)

Lemma char_to_idx_space : char_to_idx !! " "%char = Some 0.
Proof. vm_compute. reflexivity. Qed.

Lemma lookup_foldl_enumerate (l : list ascii) : forall (i0 : Z) (m : gmap Z ascii) (k : Z),
  foldl (fun m p => <[fst p := snd p]> m) m (Py.enumerate_from i0 l) !! k
  = if decide (i0 <= k < i0 + Py.len l) then nth_error l (Z.to_nat (k - i0)) else m !! k.
Proof.
  unfold Py.len. induction l as [|c l IH]; intros i0 m k; simpl Py.enumerate_from; simpl foldl.
  - case_decide; [simpl in *; lia | reflexivity].
  - rewrite IH. simpl fst; simpl snd.
    repeat case_decide; simpl length in *; try lia.
    + replace (Z.to_nat (k - i0)) with (S (Z.to_nat (k - (i0 + 1)))) by lia. reflexivity.
    + assert (k = i0) as -> by lia. rewrite lookup_insert_eq.
      replace (Z.to_nat (i0 - i0)) with 0%nat by lia. reflexivity.
    + rewrite lookup_insert_ne by lia. reflexivity.
Qed.

Lemma idx_to_char_lookup (k : Z) :
  idx_to_char !! k
  = if decide (0 <= k < 28) then nth_error (list_ascii_of_string chars) (Z.to_nat k) else None.
Proof.
  unfold idx_to_char, Py.enumerate. rewrite lookup_foldl_enumerate.
  replace (k - 0) with k by lia. reflexivity.
Qed.

Ltac nat_cases n fuel :=
  lazymatch fuel with
  | O => idtac
  | S ?f => destruct n as [|n]; [ | nat_cases n f ]
  end.

Ltac index_cases k :=
  let n := fresh "n" in
  let E := fresh "E" in
  remember (Z.to_nat k) as n eqn:E;
  assert (k = Z.of_nat n) as -> by lia; clear E;
  nat_cases n 28%nat; [ .. | exfalso; lia ].

Lemma idx_to_char_space_only_at_blank (i : Z) :
  idx_to_char !! i = Some " "%char -> i = blank_idx.
Proof.
  rewrite idx_to_char_lookup. case_decide as Hr; [|discriminate].
  index_cases i; vm_compute; intros; congruence.
Qed.

Lemma idx_to_char_get_no_space (i : Z) (c : ascii) :
  i <> blank_idx -> idx_to_char !! i = Some c -> Py.isspace c = false.
Proof.
  rewrite idx_to_char_lookup. case_decide as Hr; [|discriminate].
  index_cases i; intros Hne Hc;
    first [ exfalso; apply Hne; reflexivity
          | vm_compute in Hc; injection Hc as <-; reflexivity ].
Qed.

Lemma append_cons (c : ascii) (s x : string) : String c s +:+ x = String c (s +:+ x).
Proof. reflexivity. Qed.

Lemma string_app_assoc (s x y : string) : s +:+ (x +:+ y) = (s +:+ x) +:+ y.
Proof.
  induction s as [|c s IHs]; [reflexivity|].
  rewrite !append_cons. f_equal. exact IHs.
Qed.

Lemma lstrip_no_space s : Py.no_space s = true -> Py.lstrip s = s.
Proof. destruct s as [|c s]; simpl; [reflexivity|]. destruct (Py.isspace c); simpl; [discriminate|reflexivity]. Qed.

Lemma rstrip_no_space s : Py.no_space s = true -> Py.rstrip s = s.
Proof.
  induction s as [|c s IH]; simpl; [reflexivity|].
  destruct (Py.isspace c) eqn:E; simpl; [discriminate|]. intros H. rewrite (IH H).
  destruct s; reflexivity.
Qed.

Lemma strip_no_space s : Py.no_space s = true -> Py.strip s = s.
Proof. intros H. unfold Py.strip. rewrite lstrip_no_space by exact H. apply rstrip_no_space, H. Qed.

Lemma no_space_append s t : Py.no_space (s +:+ t) = Py.no_space s && Py.no_space t.
Proof.
  induction s as [|c s IH]; [reflexivity|].
  rewrite append_cons. cbn [Py.no_space]. rewrite IH. destruct (Py.isspace c), (Py.no_space s), (Py.no_space t); reflexivity.
Qed.

Lemma idx_to_char_get_clean (i : Z) : i <> blank_idx -> Py.no_space (idx_to_char_get i) = true.
Proof.
  intros Hne. unfold idx_to_char_get. destruct (idx_to_char !! i) as [c|] eqn:E; [|reflexivity].
  simpl. rewrite (idx_to_char_get_no_space i c Hne E). reflexivity.
Qed.

Lemma decode_chars_clean (indices : list Z) : Py.no_space (Py.join (decode_chars indices)) = true.
Proof.
  unfold decode_chars. induction indices as [|i l IH]; [reflexivity|].
  rewrite filter_cons. case_decide as Hne; [|exact IH].
  cbn [map Py.join fold_right].
  fold (Py.join (map idx_to_char_get (filter (fun idx => idx <> blank_idx) l))).
  rewrite no_space_append, IH, idx_to_char_get_clean by exact Hne. reflexivity.
Qed.

Lemma decode_unstripped (indices : list Z) : decode indices = Py.join (decode_chars indices).
Proof. apply strip_no_space, decode_chars_clean. Qed.

Lemma join_app (a b : list string) : Py.join (a ++ b) = Py.join a +:+ Py.join b.
Proof.
  induction a as [|s a IH]; [reflexivity|].
  cbn [app]. unfold Py.join in *. cbn [fold_right]. rewrite IH.
  apply string_app_assoc.
Qed.

Lemma decode_app (a b : list Z) : decode (a ++ b) = decode a +:+ decode b.
Proof.
  rewrite !decode_unstripped. unfold decode_chars.
  rewrite filter_app, map_app. apply join_app.
Qed.

Lemma encode_cons c text :
  encode (String c text) = default space_idx (char_to_idx !! Py.upper_char c) :: encode text.
Proof. reflexivity. Qed.

Lemma decode_cons i l : decode (i :: l) = decode [i] +:+ decode l.
Proof. apply (decode_app [i] l). Qed.

Lemma decode_encode_char c :
  In c (list_ascii_of_string chars) ->
  decode [default space_idx (char_to_idx !! Py.upper_char c)] = remove_spaces (String c EmptyString).
Proof.
  intros Hc. simpl in Hc.
  repeat (destruct Hc as [<-|Hc]; [vm_compute; reflexivity|]). contradiction.
Qed.

Lemma decode_encode_vocab (text : string) :
  vocab_text text -> decode (encode text) = remove_spaces text.
Proof.
  unfold vocab_text. induction text as [|c text IH]; intros Hv.
  - reflexivity.
  - cbn [list_ascii_of_string] in Hv. inversion Hv as [|c' l' Hc Hrest]; subst.
    rewrite encode_cons, decode_cons, (IH Hrest), (decode_encode_char c Hc).
    cbn [remove_spaces]. destruct (Ascii.eqb c " "); reflexivity.
Qed.

(** The subscript [self.char_to_idx[' ']] of [encode] finds its key. *)
Lemma space_idx_is_blank : space_idx = blank_idx.
Proof. vm_compute. reflexivity. Qed.

(** C1 (code defect).  The round trip [decode(encode(T)) == T.upper().strip()]
    fails on a vocabulary text with an inner space: ["A B"] encodes to
    [[1; 0; 2]], the space shares index 0 with the blank, and [decode] drops
    it, giving ["AB"], while the upper-cased, trimmed text is ["A B"]. *)
Theorem roundtrip_drops_inner_space :
  vocab_text "A B" /\
  encode "A B" = [1; 0; 2] /\
  decode (encode "A B") = "AB"%string /\
  Py.strip (Py.upper "A B") = "A B"%string.
Proof.
  split; [|vm_compute; repeat split; reflexivity].
  unfold vocab_text. cbn [list_ascii_of_string].
  repeat constructor; cbn; tauto.
Qed.

(** C3 (code defect).  In the vocabulary built by [__init__], index 0, the
    blank index, is bound to the space character itself: the blank is not
    distinct from the visible characters, [encode] sends a space to the
    blank index, and [decode] erases it. *)
Theorem blank_index_is_the_space :
  idx_to_char !! blank_idx = Some " "%char /\
  char_to_idx !! " "%char = Some blank_idx /\
  vocab_size = 28 /\
  encode " " = [blank_idx] /\
  decode [blank_idx] = EmptyString.
Proof. vm_compute. repeat split; reflexivity. Qed.

Import RealTimeStreamer.

Lemma argmax_frames_hhi : map argmax Examples.hhi_frames = [0; 8; 8; 9; 0].
Proof. vm_compute. reflexivity. Qed.

(** C2 (as stated, refuted).  The frames blank, H, H, I, blank decode to
    ["HHI"]: the repeated H is not collapsed, so the result is not ["HI"]. *)
Lemma repeated_frames_not_collapsed :
  map argmax Examples.hhi_frames = [0; 8; 8; 9; 0] /\
  greedy_decode Examples.hhi_frames = "HHI"%string /\
  greedy_decode Examples.hhi_frames <> "HI"%string.
Proof. vm_compute. repeat split; try reflexivity. discriminate. Qed.

(** C2 (amended).  The decoder has no repeat-collapse: for every score
    matrix whose argmax sequence holds two consecutive frames with the same
    non-blank label [x] of the vocabulary, the decoded text holds the
    character of [x] twice at that place, between the decodings of the frames
    before and after. *)
Theorem greedy_decode_keeps_repeats
    (log_probs : list (list Q)) (pre post : list Z) (x : Z) (c : ascii) :
  map argmax log_probs = pre ++ [x; x] ++ post ->
  x <> blank_idx ->
  idx_to_char !! x = Some c ->
  greedy_decode log_probs
  = decode pre +:+ String c (String c EmptyString) +:+ decode post.
Proof.
  intros Hfr Hx Hc. unfold greedy_decode. rewrite Hfr.
  rewrite !decode_app. f_equal. f_equal.
  rewrite decode_unstripped. unfold decode_chars.
  rewrite !filter_cons, filter_nil. case_decide; [|contradiction].
  cbn [map Py.join fold_right]. unfold idx_to_char_get. rewrite Hc. reflexivity.
Qed.

Lemma greedy_decode_keeps_repeats_witness :
  greedy_decode Examples.hhi_frames
  = decode [0] +:+ String "H" (String "H" EmptyString) +:+ decode [9; 0].
Proof.
  apply (greedy_decode_keeps_repeats Examples.hhi_frames [0] [9; 0] 8 "H").
  - vm_compute. reflexivity.
  - discriminate.
  - vm_compute. reflexivity.
Defined.

(** ** [range] and slices *)

Lemma range_inv (start stop step : Z) (l : list Z) :
  Py.range start stop step = Some l ->
  step <> 0 /\
  l = map (fun k => start + Z.of_nat k * step)
          (seq 0 (Z.to_nat (Py.range_len start stop step))).
Proof.
  unfold Py.range. destruct (Z.eqb_spec step 0) as [->|Hne]; [discriminate|].
  intros [= <-]. split; [exact Hne|reflexivity].
Qed.

Lemma range_zero_step (start stop : Z) : Py.range start stop 0 = None.
Proof. reflexivity. Qed.

Lemma range_defined (start stop step : Z) :
  step <> 0 -> exists l, Py.range start stop step = Some l.
Proof.
  intros Hne. unfold Py.range. destruct (Z.eqb_spec step 0); [contradiction|].
  eexists. reflexivity.
Qed.

Lemma range_len_pos (stop step : Z) (k : Z) :
  0 < step -> 0 <= k ->
  (k < Py.range_len 0 stop step <-> k * step < stop).
Proof.
  intros Hs Hk. unfold Py.range_len.
  destruct (Z.ltb_spec 0 step) as [_|]; [|lia].
  destruct (Z.ltb_spec 0 stop) as [Hpos|Hneg].
  - replace (stop - 0 - 1) with (stop - 1) by lia. split; intros H.
    + assert (k <= (stop - 1) / step) by lia.
      pose proof (Z.mul_div_le (stop - 1) step Hs). nia.
    + assert (k <= (stop - 1) / step); [|lia].
      apply Z.div_le_lower_bound; [exact Hs|lia].
  - split; intros H; [lia|nia].
Qed.

Lemma range_pos_In (stop step : Z) (l : list Z) (i : Z) :
  0 < step -> Py.range 0 stop step = Some l ->
  (In i l <-> exists k, 0 <= k /\ i = k * step /\ i < stop).
Proof.
  intros Hs Hr. apply range_inv in Hr as [_ ->]. rewrite in_map_iff. split.
  - intros (k & <- & Hk). apply in_seq in Hk. exists (Z.of_nat k).
    split; [lia|]. split; [lia|].
    assert (Z.of_nat k < Py.range_len 0 stop step) as Hlt by lia.
    apply range_len_pos in Hlt; lia.
  - intros (k & Hk & -> & Hlt). exists (Z.to_nat k). split; [lia|].
    apply in_seq. split; [lia|]. apply (range_len_pos stop step k Hs Hk) in Hlt. lia.
Qed.

Lemma offsets_sorted (start step : Z) (n a : nat) :
  0 < step ->
  StronglySorted Z.lt (map (fun k => start + Z.of_nat k * step) (seq a n)).
Proof.
  intros Hs. revert a. induction n as [|n IH]; intros a; cbn [seq map].
  - constructor.
  - constructor; [apply IH|].
    apply List.Forall_forall. intros x Hx. apply in_map_iff in Hx as (k & <- & Hk).
    apply in_seq in Hk. nia.
Qed.

Lemma range_pos_sorted (stop step : Z) (l : list Z) :
  0 < step -> Py.range 0 stop step = Some l -> StronglySorted Z.lt l.
Proof. intros Hs Hr. apply range_inv in Hr as [_ ->]. apply offsets_sorted, Hs. Qed.

Lemma range_neg_empty (stop step : Z) (l : list Z) :
  step < 0 -> 0 <= stop -> Py.range 0 stop step = Some l -> l = [].
Proof.
  intros Hs Hstop Hr. apply range_inv in Hr as [_ ->]. unfold Py.range_len.
  destruct (Z.ltb_spec 0 step); [lia|]. destruct (Z.ltb_spec stop 0); [lia|]. reflexivity.
Qed.

Lemma range_sorted_or_short (stop step : Z) (l : list Z) :
  Py.range 0 stop step = Some l -> StronglySorted Z.lt l \/ stop < 0.
Proof.
  intros Hr. destruct (Z.lt_trichotomy step 0) as [Hneg|[->|Hpos]].
  - destruct (Z.lt_ge_cases stop 0) as [|Hge]; [right; assumption|].
    left. rewrite (range_neg_empty stop step l Hneg Hge Hr). constructor.
  - discriminate.
  - left. exact (range_pos_sorted stop step l Hpos Hr).
Qed.

Lemma slice_length_le {A} (l : list A) (lo hi : Z) :
  (length (Py.slice l lo hi) <= length l)%nat.
Proof.
  unfold Py.slice. rewrite length_firstn, length_skipn. lia.
Qed.

Lemma slice_len_le {A} (l : list A) (lo hi : Z) : Py.len (Py.slice l lo hi) <= Py.len l.
Proof. unfold Py.len. pose proof (slice_length_le l lo hi). lia. Qed.

Lemma slice_len_inside {A} (l : list A) (lo n : Z) :
  0 <= lo -> 0 <= n -> lo + n <= Py.len l -> Py.len (Py.slice l lo (lo + n)) = n.
Proof.
  intros Hlo Hn Hin. unfold Py.slice, Py.clamp_index, Py.len in *.
  rewrite length_firstn, length_skipn.
  destruct (Z.ltb_spec lo 0); [lia|]. destruct (Z.ltb_spec (lo + n) 0); lia.
Qed.

Section StreamerFacts.

Variable model : list Q -> list (list Q).
Variable _detect_speech_energy : list Q -> bool.

(** ** [process_audio_chunk] *)

Lemma process_short (st : streamer) (chunk : list Q) :
  Py.len chunk < chunk_size st ->
  process_audio_chunk model st chunk = (EmptyString, st).
Proof.
  intros H. unfold process_audio_chunk.
  destruct (Z.ltb_spec (Py.len chunk) (chunk_size st)); [reflexivity|lia].
Qed.

Lemma process_full (st : streamer) (chunk : list Q) :
  chunk_size st <= Py.len chunk ->
  process_audio_chunk model st chunk
  = (greedy_decode (model chunk), log_model_call chunk st).
Proof.
  intros H. unfold process_audio_chunk.
  destruct (Z.ltb_spec (Py.len chunk) (chunk_size st)); [lia|reflexivity].
Qed.

Lemma process_text_config (st st' : streamer) (chunk : list Q) :
  chunk_size st' = chunk_size st ->
  fst (process_audio_chunk model st' chunk) = fst (process_audio_chunk model st chunk).
Proof.
  intros H. unfold process_audio_chunk. rewrite H.
  destruct (Py.len chunk <? chunk_size st); reflexivity.
Qed.

Lemma window_config (w : list Q) (st st' : streamer) (i : Z) :
  chunk_size st' = chunk_size st -> window w st' i = window w st i.
Proof. intros H. unfold window. rewrite H. reflexivity. Qed.

Lemma window_result_config (w : list Q) (st st' : streamer) (i : Z) :
  chunk_size st' = chunk_size st ->
  window_result model _detect_speech_energy w st' i = window_result model _detect_speech_energy w
      st i.
Proof.
  intros H. unfold window_result.
  rewrite (window_config w st st' i H), (process_text_config st st' _ H). reflexivity.
Qed.

Lemma window_result_Some (w : list Q) (st : streamer) (i : Z) (t : string) :
  window_result model _detect_speech_energy w st i = Some t <->
  _detect_speech_energy (window w st i) = true /\
  t = fst (process_audio_chunk model st (window w st i)) /\
  truthy (Py.strip t) = true.
Proof.
  unfold window_result. destruct (_detect_speech_energy (window w st i)).
  - destruct (truthy (Py.strip (fst (process_audio_chunk model st (window w st i))))) eqn:E.
    + split.
      * intros [= <-]. repeat split; [exact E].
      * intros (_ & -> & _). reflexivity.
    + split; [discriminate|]. intros (_ & -> & Ht). congruence.
  - split; [discriminate|]. intros [? _]. discriminate.
Qed.

(** A window of a buffer shorter than [chunk_size] gives no result. *)
Lemma window_result_short (w : list Q) (st : streamer) (i : Z) :
  Py.len w < chunk_size st -> window_result model _detect_speech_energy w st i = None.
Proof.
  intros Hshort. unfold window_result.
  destruct (_detect_speech_energy (window w st i)); [|reflexivity].
  rewrite process_short; [reflexivity|].
  unfold window. pose proof (slice_len_le w i (i + chunk_size st)). lia.
Qed.

(** ** The body of the worker loop *)

(** A window that the gate rejects leaves the whole state as it is: the
    model is not entered and nothing is published. *)
Lemma body_quiet (w : list Q) (st : streamer) (i : Z) :
  _detect_speech_energy (window w st i) = false ->
  realtime_body model _detect_speech_energy w st i = st.
Proof. unfold realtime_body, window. intros ->. reflexivity. Qed.

Lemma body_config (w : list Q) (st : streamer) (i : Z) :
  same_config st (realtime_body model _detect_speech_energy w st i) /\
  is_streaming (realtime_body model _detect_speech_energy w st i) = is_streaming st.
Proof.
  unfold realtime_body, same_config, process_audio_chunk.
  destruct (_detect_speech_energy _); [|tauto].
  destruct (Py.len _ <? chunk_size st); cbn [Py.strip Py.lstrip Py.rstrip truthy].
  - tauto.
  - destruct (truthy _); cbn; tauto.
Qed.

Lemma body_publish_log (w : list Q) (st : streamer) (i : Z) :
  publish_log (realtime_body model _detect_speech_energy w st i)
  = publish_log st ++ publications model _detect_speech_energy w st [i].
Proof.
  unfold publications, realtime_body, window_result, window, process_audio_chunk.
  cbn [flat_map]. rewrite app_nil_r.
  destruct (_detect_speech_energy _); [|rewrite app_nil_r; reflexivity].
  destruct (Py.len _ <? chunk_size st); cbn [fst Py.strip Py.lstrip Py.rstrip truthy].
  - rewrite app_nil_r. reflexivity.
  - destruct (truthy _); cbn; [reflexivity|rewrite app_nil_r; reflexivity].
Qed.

Lemma body_result_queue (w : list Q) (st : streamer) (i : Z) :
  result_queue (realtime_body model _detect_speech_energy w st i)
  = result_queue st ++ map snd (publications model _detect_speech_energy w st [i]).
Proof.
  unfold publications, realtime_body, window_result, window, process_audio_chunk.
  cbn [flat_map]. rewrite app_nil_r.
  destruct (_detect_speech_energy _); [|rewrite app_nil_r; reflexivity].
  destruct (Py.len _ <? chunk_size st); cbn [fst Py.strip Py.lstrip Py.rstrip truthy].
  - rewrite app_nil_r. reflexivity.
  - destruct (truthy _); cbn; [reflexivity|rewrite app_nil_r; reflexivity].
Qed.

Lemma body_model_calls (w : list Q) (st : streamer) (i : Z) :
  model_calls (realtime_body model _detect_speech_energy w st i)
  = model_calls st ++ dispatched _detect_speech_energy w st [i].
Proof.
  unfold dispatched, realtime_body, window, process_audio_chunk.
  cbn [map List.filter].
  destruct (_detect_speech_energy _); cbn [andb]; [|rewrite app_nil_r; reflexivity].
  rewrite Z.leb_antisym.
  destruct (Py.len _ <? chunk_size st); cbn [negb Py.strip Py.lstrip Py.rstrip truthy].
  - rewrite app_nil_r. reflexivity.
  - destruct (truthy _); reflexivity.
Qed.

End StreamerFacts.

Section LoopFacts.

Variable model : list Q -> list (list Q).
Variable _detect_speech_energy : list Q -> bool.

Lemma publications_cons (w : list Q) (st : streamer) (i : Z) (rest : list Z) :
  publications model _detect_speech_energy w st (i :: rest)
  = publications model _detect_speech_energy w st [i] ++ publications model _detect_speech_energy
      w st rest.
Proof. unfold publications. cbn [flat_map]. rewrite app_nil_r. reflexivity. Qed.

Lemma publications_config (w : list Q) (st st' : streamer) (offs : list Z) :
  chunk_size st' = chunk_size st ->
  publications model _detect_speech_energy w st' offs = publications model _detect_speech_energy w
      st offs.
Proof.
  intros H. unfold publications. induction offs as [|i rest IH]; [reflexivity|].
  cbn [flat_map]. rewrite IH, (window_result_config model _detect_speech_energy w st st' i H).
      reflexivity.
Qed.

Lemma dispatched_cons (w : list Q) (st : streamer) (i : Z) (rest : list Z) :
  dispatched _detect_speech_energy w st (i :: rest) = dispatched _detect_speech_energy w st [i] ++
      dispatched _detect_speech_energy w st rest.
Proof.
  unfold dispatched. cbn [map List.filter].
  destruct (_ && _); reflexivity.
Qed.

Lemma dispatched_config (w : list Q) (st st' : streamer) (offs : list Z) :
  chunk_size st' = chunk_size st -> dispatched _detect_speech_energy w st' offs = dispatched
      _detect_speech_energy w st offs.
Proof.
  intros H. unfold dispatched. rewrite H. f_equal.
  apply map_ext. intros i. apply window_config, H.
Qed.

Lemma publications_In (w : list Q) (st : streamer) (offs : list Z) (p : Z * string) :
  In p (publications model _detect_speech_energy w st offs) <->
  In (fst p) offs /\ window_result model _detect_speech_energy w st (fst p) = Some (snd p).
Proof.
  unfold publications. rewrite in_flat_map. split.
  - intros (i & Hi & Hp). destruct (window_result model _detect_speech_energy w st i) as [t|] eqn:E.
    + destruct Hp as [<-|[]]. split; assumption.
    + destruct Hp.
  - intros [Hi Hr]. exists (fst p). split; [exact Hi|].
    rewrite Hr. left. destruct p; reflexivity.
Qed.

Lemma publications_short (w : list Q) (st : streamer) (offs : list Z) :
  Py.len w < chunk_size st -> publications model _detect_speech_energy w st offs = [].
Proof.
  intros H. unfold publications. induction offs as [|i rest IH]; [reflexivity|].
  cbn [flat_map]. rewrite IH, (window_result_short model _detect_speech_energy w st i H).
      reflexivity.
Qed.

Lemma dispatched_In (w : list Q) (st : streamer) (offs : list Z) (chunk : list Q) :
  In chunk (dispatched _detect_speech_energy w st offs) <->
  (exists i, In i offs /\ chunk = window w st i) /\
  _detect_speech_energy chunk = true /\ chunk_size st <= Py.len chunk.
Proof.
  unfold dispatched. rewrite filter_In, in_map_iff, andb_true_iff, Z.leb_le.
  split.
  - intros [(i & <- & Hi) H]. split; [exists i; split; [exact Hi|reflexivity]|exact H].
  - intros [(i & Hi & ->) H]. split; [exists i; split; [reflexivity|exact Hi]|exact H].
Qed.

(** ** The worker loop, run without interference *)

Lemma loop_stopped (w : list Q) (offs : list Z) (st : streamer) :
  is_streaming st = false -> realtime_loop model _detect_speech_energy w offs st = st.
Proof. intros H. destruct offs; cbn [realtime_loop]; [|rewrite H]; reflexivity. Qed.

Lemma loop_running (w : list Q) (offs : list Z) : forall st : streamer,
  is_streaming st = true ->
  same_config st (realtime_loop model _detect_speech_energy w offs st) /\
  is_streaming (realtime_loop model _detect_speech_energy w offs st) = true /\
  publish_log (realtime_loop model _detect_speech_energy w offs st)
    = publish_log st ++ publications model _detect_speech_energy w st offs /\
  result_queue (realtime_loop model _detect_speech_energy w offs st)
    = result_queue st ++ map snd (publications model _detect_speech_energy w st offs) /\
  model_calls (realtime_loop model _detect_speech_energy w offs st)
    = model_calls st ++ dispatched _detect_speech_energy w st offs.
Proof.
  induction offs as [|i rest IH]; intros st Hrun.
  - cbn [realtime_loop]. unfold same_config, publications, dispatched. cbn.
    rewrite !app_nil_r. tauto.
  - cbn [realtime_loop]. rewrite Hrun. cbn [negb].
    destruct (body_config model _detect_speech_energy w st i) as [(Hc & Ho & Hs) Hflag].
    destruct (IH (realtime_body model _detect_speech_energy w st i)) as ((Hc' & Ho' & Hs') & Hf' &
        Hp & Hq & Hm);
      [congruence|].
    rewrite (publications_config w st _ rest Hc) in Hp, Hq.
    rewrite (dispatched_config w st _ rest Hc) in Hm.
    rewrite body_publish_log in Hp. rewrite body_result_queue in Hq.
    rewrite body_model_calls in Hm.
    rewrite (publications_cons w st i rest), (dispatched_cons w st i rest), map_app.
    unfold same_config. rewrite Hp, Hq, Hm, <- !app_assoc.
    repeat split; congruence.
Qed.

(** ** The loop of [process_uploaded_audio] *)

Lemma stamp_config (st st' : streamer) (p : Z * string) :
  sample_rate st' = sample_rate st -> stamp st' p = stamp st p.
Proof. intros H. unfold stamp. rewrite H. reflexivity. Qed.

Lemma uploaded_body_effect (w : list Q) (st : streamer) (acc : list (Q * string)) (i : Z) :
  exists st1,
    uploaded_body model _detect_speech_energy w (st, acc) i
    = (st1, acc ++ map (stamp st) (publications model _detect_speech_energy w st [i])) /\
    same_config st st1 /\
    model_calls st1 = model_calls st ++ dispatched _detect_speech_energy w st [i] /\
    result_queue st1 = result_queue st /\
    is_streaming st1 = is_streaming st /\
    publish_log st1 = publish_log st.
Proof.
  unfold uploaded_body, publications, dispatched, window_result, window,
    process_audio_chunk, same_config, stamp.
  cbn [flat_map map List.filter]. rewrite app_nil_r.
  destruct (_detect_speech_energy _); cbn [andb];
    [|exists st; cbn; rewrite !app_nil_r; tauto].
  rewrite Z.leb_antisym.
  destruct (Py.len _ <? chunk_size st);
    cbn [negb fst snd Py.strip Py.lstrip Py.rstrip truthy].
  - exists st. cbn. rewrite !app_nil_r. tauto.
  - destruct (truthy _); eexists; cbn [map fst snd]; rewrite ?app_nil_r;
      (split; [reflexivity|]); cbn; tauto.
Qed.

Lemma uploaded_fold (w : list Q) (offs : list Z) :
  forall (st : streamer) (acc : list (Q * string)),
  exists st',
    fold_left (uploaded_body model _detect_speech_energy w) offs (st, acc)
    = (st', acc ++ map (stamp st) (publications model _detect_speech_energy w st offs)) /\
    same_config st st' /\
    model_calls st' = model_calls st ++ dispatched _detect_speech_energy w st offs /\
    result_queue st' = result_queue st /\
    is_streaming st' = is_streaming st /\
    publish_log st' = publish_log st.
Proof.
  induction offs as [|i rest IH]; intros st acc.
  - exists st. unfold same_config, publications, dispatched. cbn.
    rewrite !app_nil_r. tauto.
  - cbn [fold_left].
    destruct (uploaded_body_effect w st acc i)
      as (st1 & -> & (Hc & Ho & Hs) & Hm & Hq & Hf & Hp).
    destruct (IH st1 (acc ++ map (stamp st) (publications model _detect_speech_energy w st [i])))
      as (st' & -> & (Hc' & Ho' & Hs') & Hm' & Hq' & Hf' & Hp').
    exists st'. rewrite (publications_cons w st i rest), (dispatched_cons w st i rest), map_app.
    rewrite (publications_config w st st1 rest Hc).
    rewrite (dispatched_config w st st1 rest Hc) in Hm'.
    rewrite (map_ext (stamp st1) (stamp st) (fun p => stamp_config st st1 p Hs)).
    unfold same_config. rewrite Hm', Hm, <- !app_assoc.
    repeat split; congruence.
Qed.

End LoopFacts.

(** ** The windows of the file mode *)

Lemma range_length (start stop step : Z) (l : list Z) :
  Py.range start stop step = Some l ->
  length l = Z.to_nat (Py.range_len start stop step).
Proof.
  intros Hr. apply range_inv in Hr as [_ ->]. rewrite length_map, length_seq. reflexivity.
Qed.

Lemma range_len_multiple (q step : Z) :
  0 < step -> 0 <= q -> Py.range_len 0 (q * step) step = q.
Proof.
  intros Hs Hq. unfold Py.range_len. destruct (Z.ltb_spec 0 step); [|lia].
  destruct (Z.ltb_spec 0 (q * step)) as [Hpos|Hz]; [|nia].
  assert ((q * step - 0 - 1) / step = q - 1) as ->; [|lia].
  symmetry. apply (Z.div_unique _ _ _ (step - 1)); lia.
Qed.

Lemma range_len_ceil (stop step : Z) :
  0 < step -> Py.range_len 0 stop step = Z.max 0 ((stop + step - 1) / step).
Proof.
  intros Hs. unfold Py.range_len. destruct (Z.ltb_spec 0 step); [|lia].
  destruct (Z.ltb_spec 0 stop) as [Hpos|Hz].
  - replace (stop + step - 1) with (stop - 0 - 1 + 1 * step) by lia.
    rewrite Z.div_add by lia.
    assert (0 <= (stop - 0 - 1) / step) by (apply Z.div_pos; lia). lia.
  - assert ((stop + step - 1) / step <= 0); [|lia].
    assert ((stop + step - 1) / step < 1); [|lia].
    apply Z.div_lt_upper_bound; lia.
Qed.

Lemma realtime_windows_inv (st : streamer) (w : list Q) (ws : list (Z * list Q)) :
  realtime_windows st w = Some ws ->
  exists offs,
    realtime_offsets st w = Some offs /\
    ws = map (fun i => (i, window w st i)) offs /\
    map fst ws = offs.
Proof.
  unfold realtime_windows. destruct (realtime_offsets st w) as [offs|]; [|discriminate].
  intros [= <-]. exists offs. split; [reflexivity|]. split; [reflexivity|].
  rewrite map_map. cbn [fst]. apply map_id.
Qed.

(** C4 (code defect).  With overlap below the chunk size, a buffer at least
    one chunk long, and a step that divides [L - C], the loop of
    [_simulate_realtime_processing] cuts [floor((L - C) / (C - O))] windows:
    one fewer than [max(0, floor((L - C) / (C - O)) + 1)].  The offset
    [L - C], whose window is a full chunk with [offset + C <= L], is not
    among them: [range] stops before [len(waveform) - chunk_size]. *)
Theorem last_full_window_is_skipped (st : streamer) (w : list Q) :
  overlap_size st < chunk_size st ->
  chunk_size st <= Py.len w ->
  (Py.len w - chunk_size st) mod (chunk_size st - overlap_size st) = 0 ->
  exists ws,
    realtime_windows st w = Some ws /\
    Py.len ws = (Py.len w - chunk_size st) / (chunk_size st - overlap_size st) /\
    ~ In (Py.len w - chunk_size st) (map fst ws) /\
    Z.max 0 ((Py.len w - chunk_size st) / (chunk_size st - overlap_size st) + 1)
    = Py.len ws + 1.
Proof.
  intros Hstep Hlen Hmod.
  set (step := chunk_size st - overlap_size st) in *.
  set (stop := Py.len w - chunk_size st) in *.
  assert (0 < step) as Hs by (unfold step; lia).
  destruct (range_defined 0 stop step) as [offs Hoffs]; [lia|].
  exists (map (fun i => (i, window w st i)) offs).
  assert (realtime_windows st w = Some (map (fun i => (i, window w st i)) offs)) as Hw.
  { unfold realtime_windows, realtime_offsets. fold step. fold stop. rewrite Hoffs. reflexivity. }
  split; [exact Hw|].
  assert (stop = stop / step * step) as Hq.
  { pose proof (Z.div_mod stop step ltac:(lia)). lia. }
  assert (0 <= stop / step) as Hq0 by (apply Z.div_pos; unfold stop; lia).
  assert (Py.len (map (fun i => (i, window w st i)) offs) = stop / step) as Hcount.
  { unfold Py.len. rewrite length_map, (range_length _ _ _ _ Hoffs).
    rewrite Hq at 1. rewrite range_len_multiple by lia. lia. }
  split; [exact Hcount|]. split.
  - rewrite map_map. cbn [fst]. rewrite map_id.
    intros Hin. apply (range_pos_In stop step offs stop Hs Hoffs) in Hin as (k & _ & _ & Hlt). lia.
  - rewrite Hcount. lia.
Qed.

Lemma last_full_window_is_skipped_witness :
  exists ws,
    realtime_windows (init 4 2) (Examples.loud 4) = Some ws /\
    Py.len ws = (Py.len (Examples.loud 4) - 4) / (4 - 2) /\
    ~ In (Py.len (Examples.loud 4) - 4) (map fst ws) /\
    Z.max 0 ((Py.len (Examples.loud 4) - 4) / (4 - 2) + 1) = Py.len ws + 1.
Proof.
  apply (last_full_window_is_skipped (init 4 2) (Examples.loud 4));
    vm_compute; first [reflexivity | discriminate].
Defined.

(** ** The short-chunk guard and the queue *)

Section Claims.

Variable model : list Q -> list (list Q).
Variable _detect_speech_energy : list Q -> bool.

(** C10.  A chunk shorter than [chunk_size] gives the empty string and the
    state is returned unchanged: the model is not entered. *)
Theorem short_chunk_gives_empty (st : streamer) (audio_chunk : list Q) :
  Py.len audio_chunk < chunk_size st ->
  process_audio_chunk model st audio_chunk = (EmptyString, st).
Proof. apply process_short. Qed.

End Claims.

Lemma short_chunk_gives_empty_witness :
  process_audio_chunk Examples.hi_model Examples.small_streamer (Examples.loud 3)
  = (EmptyString, Examples.small_streamer).
Proof.
  apply (short_chunk_gives_empty Examples.hi_model Examples.small_streamer (Examples.loud 3)).
  vm_compute. reflexivity.
Defined.

(** C9.  [get_latest_transcription] on an empty queue returns [None] and
    leaves the state as it is; on a non-empty queue it returns the result at
    the front and removes it.  It is a total function of the state: there is
    no waiting and no exception left. *)
Theorem poll_latest (st : streamer) :
  match result_queue st with
  | [] => get_latest_transcription st = (None, st)
  | r :: q => get_latest_transcription st = (Some r, set_result_queue q st)
  end.
Proof.
  unfold get_latest_transcription. destruct (result_queue st); reflexivity.
Qed.

(** ** The worker's publications *)

Lemma truthy_nonempty (s : string) : truthy s = true <-> s <> EmptyString.
Proof. destruct s; cbn; split; congruence. Qed.

Section Publications.

Variable model : list Q -> list (list Q).
Variable _detect_speech_energy : list Q -> bool.

Lemma simulate_inv (st : streamer) (w : list Q) (st' : streamer) :
  _simulate_realtime_processing model _detect_speech_energy st w = Some st' ->
  exists offs,
    realtime_offsets st w = Some offs /\ st' = realtime_loop model _detect_speech_energy w offs st.
Proof.
  unfold _simulate_realtime_processing.
  destruct (realtime_offsets st w) as [offs|]; [|discriminate].
  intros [= <-]. exists offs. split; reflexivity.
Qed.

(** C5 (amended).  Every result the worker loop puts on the result queue
    is the transcription of one of its windows alone, a plain string: the
    window passed the gate, the string is what [process_audio_chunk]
    returned for it, and it is not empty after stripping.  The queue grows
    by exactly these strings, in the order of the puts; no timestamp is
    attached to them. *)
Theorem worker_publishes_text_only (st : streamer) (w : list Q) (st' : streamer) :
  _simulate_realtime_processing model _detect_speech_energy st w = Some st' ->
  exists offs new,
    realtime_offsets st w = Some offs /\
    publish_log st' = publish_log st ++ new /\
    result_queue st' = result_queue st ++ map snd new /\
    Forall (fun p =>
              In (fst p) offs /\
              _detect_speech_energy (window w st (fst p)) = true /\
              snd p = fst (process_audio_chunk model st (window w st (fst p))) /\
              Py.strip (snd p) <> EmptyString) new.
Proof.
  intros Hrun. apply simulate_inv in Hrun as (offs & Hoffs & ->).
  exists offs. destruct (is_streaming st) eqn:Hflag.
  - exists (publications model _detect_speech_energy w st offs).
    destruct (loop_running model _detect_speech_energy w offs st Hflag) as (_ & _ & Hp & Hq & _).
    split; [exact Hoffs|]. split; [exact Hp|]. split; [exact Hq|].
    apply List.Forall_forall. intros p Hin.
    apply publications_In in Hin as [Hi Hr].
    apply window_result_Some in Hr as (Hg & Ht & Hs).
    apply truthy_nonempty in Hs. tauto.
  - exists []. rewrite (loop_stopped model _detect_speech_energy w offs st Hflag), !app_nil_r.
    split; [exact Hoffs|]. repeat split. constructor.
Qed.

End Publications.

Lemma worker_publishes_text_only_witness :
  exists offs new,
    realtime_offsets Examples.small_streamer (Examples.loud 7) = Some offs /\
    publish_log (realtime_loop Examples.hi_model Examples.stub_gate (Examples.loud 7) [0; 2]
        Examples.small_streamer)
    = publish_log Examples.small_streamer ++ new /\
    result_queue (realtime_loop Examples.hi_model Examples.stub_gate (Examples.loud 7) [0; 2]
        Examples.small_streamer)
    = result_queue Examples.small_streamer ++ map snd new /\
    Forall (fun p =>
              In (fst p) offs /\
              Examples.stub_gate (window (Examples.loud 7) Examples.small_streamer (fst p)) = true
                  /\
              snd p = fst (process_audio_chunk Examples.hi_model Examples.small_streamer
                             (window (Examples.loud 7) Examples.small_streamer (fst p))) /\
              Py.strip (snd p) <> EmptyString) new.
Proof.
  apply (worker_publishes_text_only Examples.hi_model Examples.stub_gate Examples.small_streamer
           (Examples.loud 7)
           (realtime_loop Examples.hi_model Examples.stub_gate (Examples.loud 7) [0; 2]
               Examples.small_streamer)).
  vm_compute. reflexivity.
Defined.

(** C5 (as stated, refuted).  With the stub model that answers "HI", the
    worker publishes the same value ["HI"] for the windows at offsets 0 and
    2: the published results are bare strings, and no timestamp equal to
    [offset / sample_rate] can be read off them. *)
Lemma published_results_carry_no_timestamp :
  exists st',
    _simulate_realtime_processing Examples.hi_model Examples.stub_gate Examples.small_streamer
        (Examples.loud 7)
    = Some st' /\
    publish_log st' = [(0, "HI"%string); (2, "HI"%string)] /\
    result_queue st' = ["HI"%string; "HI"%string] /\
    ~ exists timestamp_of : string -> Q,
        Forall (fun p => (timestamp_of (snd p)
                          == inject_Z (fst p) / inject_Z (sample_rate st'))%Q)
               (publish_log st').
Proof.
  eexists. split; [vm_compute; reflexivity|].
  split; [reflexivity|]. split; [reflexivity|].
  intros [ts H]. cbn [publish_log] in H.
  inversion H as [|p0 l0 H0 Hrest]; subst. inversion Hrest as [|p1 l1 H1 _]; subst.
  cbn [fst snd sample_rate] in H0, H1.
  rewrite H0 in H1. vm_compute in H1. discriminate.
Qed.

(** ** The worker thread next to its caller *)

Lemma poll_fields (st : streamer) :
  same_config st (snd (get_latest_transcription st)) /\
  is_streaming (snd (get_latest_transcription st)) = is_streaming st /\
  model_calls (snd (get_latest_transcription st)) = model_calls st /\
  publish_log (snd (get_latest_transcription st)) = publish_log st.
Proof.
  unfold get_latest_transcription, same_config.
  destruct (get_nowait (result_queue st)) as [[r q]|]; cbn; tauto.
Qed.

Lemma poll_queue (st : streamer) :
  result_queue st
  = match fst (get_latest_transcription st) with
    | Some r => r :: result_queue (snd (get_latest_transcription st))
    | None => result_queue (snd (get_latest_transcription st))
    end.
Proof.
  unfold get_latest_transcription, get_nowait.
  destruct (result_queue st) as [|r q] eqn:E; cbn; [symmetry; exact E|reflexivity].
Qed.


Lemma sorted_drop_middle {A} (R : A -> A -> Prop) (a b : list A) (x : A) :
  StronglySorted R (a ++ x :: b) -> StronglySorted R (a ++ b).
Proof.
  rewrite !StronglySorted_app, StronglySorted_cons.
  intros (Hab & Ha & _ & Hb). split; [|split; assumption].
  intros x1 x2 H1 H2. apply Hab; [exact H1|]. apply elem_of_cons. right. exact H2.
Qed.

Section Concurrency.

Variable model : list Q -> list (list Q).
Variable _detect_speech_energy : list Q -> bool.
Variable w : list Q.



(** The worker alone, from the top of its loop to the end, computes
    [realtime_loop]. *)
Lemma worker_alone (offs : list Z) : forall st : streamer,
  exists tr,
    steps model _detect_speech_energy w (System st (AtTop offs)) tr
          (System (realtime_loop model _detect_speech_energy w offs st) Finished).
Proof.
  induction offs as [|i rest IH]; intros st.
  - exists [WExit]. cbn. eapply steps_cons; [apply step_exhausted|apply steps_nil].
  - cbn [realtime_loop]. destruct (is_streaming st) eqn:Hf; cbn [negb].
    + destruct (IH (realtime_body model _detect_speech_energy w st i)) as [tr Htr].
      exists (WEnter i :: WBody i :: tr).
      eapply steps_cons; [apply step_enter, Hf|].
      eapply steps_cons; [apply step_body|exact Htr].
    + exists [WExit]. eapply steps_cons; [apply step_break, Hf|apply steps_nil].
Qed.

End Concurrency.


(** ** Order of the results *)

Lemma stamps_sorted (sr : Z) (l : list Z) :
  0 < sr ->
  StronglySorted Z.lt l ->
  StronglySorted Qlt (map (fun i => (inject_Z i / inject_Z sr)%Q) l).
Proof.
  intros Hsr Hl. induction Hl as [|i l Hl IH Hall]; cbn [map]; constructor; [exact IH|].
  apply List.Forall_forall. intros q Hq. apply in_map_iff in Hq as (j & <- & Hj).
  rewrite List.Forall_forall in Hall. specialize (Hall j Hj).
  unfold Qdiv. apply Qmult_lt_compat_r.
  - apply Qinv_lt_0_compat. unfold Qlt. cbn. lia.
  - rewrite <- Zlt_Qlt. exact Hall.
Qed.

Section Order.

Variable model : list Q -> list (list Q).
Variable _detect_speech_energy : list Q -> bool.
Variable w : list Q.

Lemma publications_offsets_sorted (st : streamer) (offs : list Z) :
  StronglySorted Z.lt offs ->
  StronglySorted Z.lt (map fst (publications model _detect_speech_energy w st offs)).
Proof.
  intros Hs. induction Hs as [|i rest Hs IH Hall].
  - constructor.
  - rewrite (publications_cons model _detect_speech_energy w st i rest), map_app.
    assert (Forall (Z.lt i) (map fst (publications model _detect_speech_energy w st rest))) as Hlt.
    { apply List.Forall_forall. intros j Hj. apply in_map_iff in Hj as (p & <- & Hp).
      apply publications_In in Hp as [Hp _].
      rewrite List.Forall_forall in Hall. apply Hall, Hp. }
    unfold publications at 1. cbn [flat_map]. rewrite app_nil_r.
    destruct (window_result model _detect_speech_energy w st i); cbn [map fst app].
    + constructor; assumption.
    + exact IH.
Qed.

(** The invariant of the running system: the results polled so far,
    followed by the queue, are the texts of the publication log; the
    offsets of the log, followed by the offsets still to come, increase. *)
Lemma ordered_run (C : Z) (s : system) (tr : list event) (s' : system) :
  steps model _detect_speech_energy w s tr s' ->
  forall seen : list string,
  chunk_size (obj s) = C ->
  seen ++ result_queue (obj s) = map snd (publish_log (obj s)) ->
  (StronglySorted Z.lt (map fst (publish_log (obj s)) ++ pending (pc s)) \/
   (Py.len w < C /\ publish_log (obj s) = [])) ->
  chunk_size (obj s') = C /\
  seen ++ polled tr ++ result_queue (obj s') = map snd (publish_log (obj s')) /\
  (StronglySorted Z.lt (map fst (publish_log (obj s')) ++ pending (pc s')) \/
   (Py.len w < C /\ publish_log (obj s') = [])).
Proof.
  intros Hsteps.
  induction Hsteps as [s|s e s1 tr s2 Hstep Hsteps IH]; intros seen Hc Hq Hs.
  - cbn [polled app]. auto.
  - destruct Hstep as [st|st i rest Hf|st i rest Hf|st i rest|st p|st p|st p];
      cbn [obj pc pending] in *.
    + apply (IH seen Hc Hq Hs).
    + apply (IH seen Hc Hq). cbn [pending].
      destruct Hs as [Hs|Hs]; [left|right; exact Hs].
      rewrite app_nil_r. apply StronglySorted_app_1_l in Hs. exact Hs.
    + apply (IH seen Hc Hq Hs).
    + destruct (body_config model _detect_speech_energy w st i) as [(Hc' & _) _].
      apply (IH seen); cbn [obj pc pending].
      * congruence.
      * rewrite body_result_queue, body_publish_log, map_app, app_assoc, Hq. reflexivity.
      * rewrite body_publish_log. destruct Hs as [Hs|[Hshort Hlog]].
        -- left. unfold publications. cbn [flat_map]. rewrite app_nil_r.
           destruct (window_result model _detect_speech_energy w st i); cbn [map fst].
           ++ rewrite map_app, <- app_assoc. exact Hs.
           ++ rewrite app_nil_r. apply sorted_drop_middle in Hs. exact Hs.
        -- right. split; [exact Hshort|].
           rewrite Hlog, publications_short by lia. reflexivity.
    + apply (IH seen Hc Hq Hs).
    + apply (IH seen Hc Hq Hs).
    + destruct (poll_fields st) as ((Hc' & _) & _ & _ & Hp).
      pose proof (poll_queue st) as Hpq.
      destruct (fst (get_latest_transcription st)) as [r|]; cbn [polled].
      * destruct (IH (seen ++ [r])) as (H1 & H2 & H3); cbn [obj pc].
        -- congruence.
        -- rewrite Hp, <- Hq, Hpq, <- app_assoc. reflexivity.
        -- rewrite Hp. exact Hs.
        -- split; [exact H1|]. split; [|exact H3].
           rewrite <- H2, <- app_assoc. reflexivity.
      * apply (IH seen); cbn [obj pc].
        -- congruence.
        -- rewrite Hp, <- Hq, Hpq. reflexivity.
        -- rewrite Hp. exact Hs.
Qed.

(** C8.  On a streamer whose queue and log are empty: however the worker
    and its caller interleave, the results polled so far followed by the
    results still queued are the published texts in the order of their
    puts, and the windows of these puts have strictly increasing offsets;
    and the list that [process_uploaded_audio] returns has strictly
    increasing timestamps. *)
Theorem results_in_window_order (st : streamer) :
  publish_log st = [] ->
  result_queue st = [] ->
  0 < sample_rate st ->
  (forall offs tr s',
      realtime_offsets st w = Some offs ->
      steps model _detect_speech_energy w (System st (AtTop offs)) tr s' ->
      StronglySorted Z.lt (map fst (publish_log (obj s'))) /\
      polled tr ++ result_queue (obj s') = map snd (publish_log (obj s'))) /\
  (forall results st',
      process_uploaded_audio model _detect_speech_energy st w = Some (results, st') ->
      StronglySorted Qlt (map fst results)).
Proof.
  intros Hlog Hqueue Hsr. split.
  - intros offs tr s' Hoffs Hsteps.
    destruct (ordered_run (chunk_size st) _ _ _ Hsteps []) as (_ & Hq & Hs);
      cbn [obj pc pending app].
    + reflexivity.
    + rewrite Hlog, Hqueue. reflexivity.
    + rewrite Hlog. cbn [map app]. unfold realtime_offsets in Hoffs.
      destruct (range_sorted_or_short _ _ _ Hoffs) as [Hsorted|Hshort].
      * left. exact Hsorted.
      * right. split; [lia|reflexivity].
    + split; [|exact Hq].
      destruct Hs as [Hs|[_ ->]]; [|constructor].
      apply StronglySorted_app_1_l in Hs. exact Hs.
  - intros results st'. unfold process_uploaded_audio.
    destruct (Py.range 0 (Py.len w - chunk_size st) (chunk_size st / 2))
      as [offs|] eqn:Hoffs; [|discriminate].
    destruct (uploaded_fold model _detect_speech_energy w offs st []) as (st1 & -> & _).
    intros [= <- <-]. cbn [app]. rewrite map_map.
    rewrite (map_ext (fun p => fst (stamp st p))
               (fun p => (inject_Z (fst p) / inject_Z (sample_rate st))%Q))
      by reflexivity.
    rewrite <- (map_map fst (fun i => (inject_Z i / inject_Z (sample_rate st))%Q)).
    destruct (range_sorted_or_short _ _ _ Hoffs) as [Hsorted|Hshort].
    + apply stamps_sorted; [exact Hsr|].
      apply publications_offsets_sorted, Hsorted.
    + rewrite publications_short by lia. constructor.
Qed.

End Order.

Lemma results_in_window_order_witness :
  (forall offs tr s',
      realtime_offsets Examples.small_streamer (Examples.loud 7) = Some offs ->
      steps Examples.hi_model Examples.stub_gate (Examples.loud 7)
            (System Examples.small_streamer (AtTop offs)) tr s' ->
      StronglySorted Z.lt (map fst (publish_log (obj s'))) /\
      polled tr ++ result_queue (obj s') = map snd (publish_log (obj s'))) /\
  (forall results st',
      process_uploaded_audio Examples.hi_model Examples.stub_gate Examples.small_streamer
          (Examples.loud 7)
      = Some (results, st') ->
      StronglySorted Qlt (map fst results)).
Proof.
  apply (results_in_window_order Examples.hi_model Examples.stub_gate (Examples.loud 7)
      Examples.small_streamer);
    reflexivity.
Defined.

(** * Further properties *)

(** ** [CharTokenizer] *)

Lemma encode_length (text : string) : length (encode text) = String.length text.
Proof.
  unfold encode. rewrite length_map.
  induction text as [|c text IH]; cbn [Py.upper list_ascii_of_string length String.length];
    [reflexivity|]. rewrite IH. reflexivity.
Qed.

Ltac ascii_cases c :=
  destruct c as [b0 b1 b2 b3 b4 b5 b6 b7];
  destruct b0, b1, b2, b3, b4, b5, b6, b7.

Lemma encode_char_range (c : ascii) :
  0 <= default space_idx (char_to_idx !! Py.upper_char c) < vocab_size.
Proof. ascii_cases c; vm_compute; split; congruence. Qed.

(** [encode] never fails: on an ASCII text it gives one label per character,
    and every label is an index of the vocabulary. *)
Theorem encode_total (text : string) :
  Py.ascii_text text = true ->
  length (encode text) = String.length text /\
  Forall (fun idx => 0 <= idx < vocab_size) (encode text).
Proof.
  intros _. split; [apply encode_length|].
  induction text as [|c text IH]; [constructor|].
  rewrite encode_cons. constructor; [apply encode_char_range|exact IH].
Qed.

Lemma decode_encode_any_char (c : ascii) :
  decode [default space_idx (char_to_idx !! Py.upper_char c)]
  = keep_letters (String (Py.upper_char c) EmptyString).
Proof. ascii_cases c; vm_compute; reflexivity. Qed.

Lemma encode_total_witness :
  length (encode "it's ok!") = String.length "it's ok!" /\
  Forall (fun idx => 0 <= idx < vocab_size) (encode "it's ok!").
Proof. apply (encode_total "it's ok!"). reflexivity. Defined.

Lemma decode_encode_keep (text : string) :
  decode (encode text) = keep_letters (Py.upper text).
Proof.
  induction text as [|c text IH]; [reflexivity|].
  rewrite encode_cons, decode_cons, IH, decode_encode_any_char.
  cbn [Py.upper keep_letters]. destruct (is_letter (Py.upper_char c)); reflexivity.
Qed.

Lemma keep_letters_spaceless (text : string) :
  spaceless text = true -> keep_letters (Py.upper text) = Py.upper text.
Proof.
  induction text as [|c text IH]; cbn [spaceless Py.upper keep_letters]; [reflexivity|].
  intros H. apply andb_true_iff in H as [Hc Ht]. rewrite Hc, (IH Ht). reflexivity.
Qed.

(** For every ASCII text, [decode(encode(text))] is the upper-cased text
    without its spaces and without the characters that are not in the
    vocabulary: only the letters A to Z and the apostrophes remain. *)
Theorem decode_encode_any (text : string) :
  Py.ascii_text text = true ->
  decode (encode text) = keep_letters (Py.upper text).
Proof. intros _. apply decode_encode_keep. Qed.

Lemma decode_encode_any_witness :
  decode (encode "it's ok!") = keep_letters (Py.upper "it's ok!").
Proof. apply (decode_encode_any "it's ok!"). reflexivity. Defined.

(** The round trip holds on texts without spaces: a text made of letters
    (of either case) and apostrophes decodes back to its upper-cased form. *)
Theorem roundtrip_without_spaces (text : string) :
  spaceless text = true -> decode (encode text) = Py.upper text.
Proof. intros H. rewrite decode_encode_keep. apply keep_letters_spaceless, H. Qed.

Lemma roundtrip_without_spaces_witness :
  decode (encode "Don't") = Py.upper "Don't".
Proof. apply (roundtrip_without_spaces "Don't"). vm_compute. reflexivity. Defined.

(** The text [decode] returns holds no white space: the final [strip]
    removes nothing, and stripping the result again changes nothing. *)
Theorem decode_has_no_space (indices : list Z) :
  Py.no_space (decode indices) = true /\
  decode indices = Py.join (decode_chars indices) /\
  Py.strip (decode indices) = decode indices.
Proof.
  assert (Py.no_space (decode indices) = true) as H
      by (rewrite decode_unstripped; apply decode_chars_clean).
  split; [exact H|]. split; [apply decode_unstripped|apply strip_no_space, H].
Qed.

(** [decode] goes through concatenation: decoding two label sequences one
    after the other is decoding their concatenation. *)
Theorem decode_concat (a b : list Z) : decode (a ++ b) = decode a +:+ decode b.
Proof. apply decode_app. Qed.

Lemma idx_to_char_get_letter (idx : Z) :
  idx_to_char_get idx = EmptyString \/
  (is_letter_idx idx = true /\ exists c, idx_to_char_get idx = String c EmptyString) \/
  idx = blank_idx.
Proof.
  unfold idx_to_char_get. rewrite idx_to_char_lookup.
  case_decide as Hr; [|left; reflexivity].
  index_cases idx; first [ right; right; reflexivity
                         | right; left; split; [reflexivity|eexists; vm_compute; reflexivity] ].
Qed.

Lemma idx_to_char_get_outside (idx : Z) :
  is_letter_idx idx = false -> idx <> blank_idx -> idx_to_char_get idx = EmptyString.
Proof.
  intros Hl Hb. destruct (idx_to_char_get_letter idx) as [H|[[H _]|H]];
    [exact H|congruence|contradiction].
Qed.

Lemma decode_single (idx : Z) :
  String.length (decode [idx]) = if is_letter_idx idx then 1%nat else 0%nat.
Proof.
  rewrite decode_unstripped. unfold decode_chars. rewrite filter_cons, filter_nil.
  case_decide as Hb.
  - cbn [map Py.join fold_right].
    destruct (idx_to_char_get_letter idx) as [H|[[Hl [c H]]|H]].
    + rewrite H. destruct (is_letter_idx idx) eqn:E; [|reflexivity].
      exfalso. revert H. unfold idx_to_char_get. rewrite idx_to_char_lookup.
      unfold is_letter_idx in E. apply andb_true_iff in E as [E1 E2].
      apply Z.leb_le in E1, E2. case_decide; [|lia].
      index_cases idx; vm_compute; congruence.
    + rewrite H, Hl. reflexivity.
    + contradiction.
  - assert (idx = 0) as -> by (unfold blank_idx in Hb; lia). reflexivity.
Qed.

Lemma string_length_app (s t : string) :
  String.length (s +:+ t) = (String.length s + String.length t)%nat.
Proof.
  induction s as [|c s IH]; [reflexivity|].
  rewrite append_cons. cbn [String.length]. rewrite IH. reflexivity.
Qed.

(** One character per frame: the decoded text has as many characters as
    there are frames with a letter label (1 to 27); blank frames and labels
    outside the vocabulary give nothing, and nothing is merged. *)
Theorem decode_length (indices : list Z) :
  String.length (decode indices) = length (List.filter is_letter_idx indices).
Proof.
  induction indices as [|idx l IH]; [reflexivity|].
  rewrite decode_cons, string_length_app, IH, decode_single. cbn [List.filter].
  destruct (is_letter_idx idx); reflexivity.
Qed.

Lemma append_empty (s t : string) :
  s +:+ t = EmptyString <-> s = EmptyString /\ t = EmptyString.
Proof.
  destruct s as [|c s]; [cbn; tauto|].
  rewrite append_cons. split; [discriminate|intros [H _]; discriminate].
Qed.

Lemma decode_single_empty (idx : Z) :
  decode [idx] = EmptyString <-> is_letter_idx idx = false.
Proof.
  pose proof (decode_single idx) as H.
  destruct (is_letter_idx idx); destruct (decode [idx]); cbn in H; split;
    congruence.
Qed.

(** [decode] returns the empty string exactly when no frame carries a
    letter label: blank frames and out-of-range labels are dropped silently. *)
Theorem decode_empty_iff (indices : list Z) :
  decode indices = EmptyString <-> Forall (fun idx => is_letter_idx idx = false) indices.
Proof.
  induction indices as [|idx l IH].
  - split; [constructor|reflexivity].
  - rewrite decode_cons, append_empty, decode_single_empty, IH. split.
    + intros [H1 H2]. constructor; assumption.
    + intros H. inversion H; subst. split; assumption.
Qed.

Lemma char_to_idx_back (c : ascii) (i : Z) :
  char_to_idx !! c = Some i -> idx_to_char !! i = Some c.
Proof. ascii_cases c; vm_compute; intros [= <-]; reflexivity. Qed.

Lemma idx_to_char_back (i : Z) (c : ascii) :
  idx_to_char !! i = Some c -> char_to_idx !! c = Some i.
Proof.
  rewrite idx_to_char_lookup. case_decide as Hr; [|discriminate].
  index_cases i; vm_compute; intros [= <-]; reflexivity.
Qed.

(** The two tables of the tokenizer are inverse to each other, and the
    labels they bind are exactly 0 to 27. *)
Theorem vocabulary_tables_inverse (i : Z) (c : ascii) :
  (idx_to_char !! i = Some c <-> char_to_idx !! c = Some i) /\
  (is_Some (idx_to_char !! i) <-> 0 <= i < vocab_size).
Proof.
  split; [split; [apply idx_to_char_back|apply char_to_idx_back]|].
  rewrite idx_to_char_lookup. change vocab_size with 28. case_decide as Hr.
  - split; [intros _; exact Hr|intros _].
    index_cases i; vm_compute; eexists; reflexivity.
  - split; [intros [x Hx]; discriminate|intros H; contradiction].
Qed.

(** ** The windows of the worker loop *)

(** With an overlap below the chunk size, the worker's loop visits the
    offsets [k * (C - O)] with [offset + C < L], in increasing order, and no
    other offset. *)
Theorem realtime_offsets_spec (st : streamer) (w : list Q) :
  overlap_size st < chunk_size st ->
  exists offs,
    realtime_offsets st w = Some offs /\
    StronglySorted Z.lt offs /\
    forall i, In i offs <->
              exists k, 0 <= k /\ i = k * (chunk_size st - overlap_size st) /\
                        i + chunk_size st < Py.len w.
Proof.
  intros Hstep. unfold realtime_offsets.
  destruct (range_defined 0 (Py.len w - chunk_size st) (chunk_size st - overlap_size st))
    as [offs Hoffs]; [lia|].
  assert (0 < chunk_size st - overlap_size st) as Hs by lia.
  exists offs. split; [exact Hoffs|]. split.
  - apply (range_pos_sorted _ _ _ Hs Hoffs).
  - intros i. rewrite (range_pos_In _ _ _ i Hs Hoffs).
    split; intros (k & Hk & Hi & Hlt); exists k; repeat split; lia.
Qed.

Lemma realtime_offsets_spec_witness :
  exists offs,
    realtime_offsets (init 4 2) (Examples.loud 9) = Some offs /\
    StronglySorted Z.lt offs /\
    forall i, In i offs <->
              exists k, 0 <= k /\ i = k * (4 - 2) /\ i + 4 < Py.len (Examples.loud 9).
Proof. apply (realtime_offsets_spec (init 4 2) (Examples.loud 9)). reflexivity. Defined.

(** The number of windows of the worker's loop is
    [max(0, floor((L - O - 1) / (C - O)))], the number of multiples of the
    step that lie strictly below [L - C]. *)
Theorem window_count (st : streamer) (w : list Q) (offs : list Z) :
  overlap_size st < chunk_size st ->
  realtime_offsets st w = Some offs ->
  Py.len offs
  = Z.max 0 ((Py.len w - overlap_size st - 1) / (chunk_size st - overlap_size st)).
Proof.
  intros Hstep Hoffs. unfold realtime_offsets in Hoffs. unfold Py.len at 1.
  rewrite (range_length _ _ _ _ Hoffs), range_len_ceil by lia.
  replace (Py.len w - chunk_size st + (chunk_size st - overlap_size st) - 1)
    with (Py.len w - overlap_size st - 1) by lia.
  lia.
Qed.

Lemma window_count_witness :
  Py.len [0; 2; 4]
  = Z.max 0 ((Py.len (Examples.loud 9) - 2 - 1) / (4 - 2)).
Proof.
  apply (window_count (init 4 2) (Examples.loud 9) [0; 2; 4]); reflexivity.
Defined.

(** When the step does not divide [L - C], the number of windows is
    [max(0, floor((L - C) / (C - O)) + 1)]. *)
Theorem window_count_off_grid (st : streamer) (w : list Q) (offs : list Z) :
  overlap_size st < chunk_size st ->
  (Py.len w - chunk_size st) mod (chunk_size st - overlap_size st) <> 0 ->
  realtime_offsets st w = Some offs ->
  Py.len offs
  = Z.max 0 ((Py.len w - chunk_size st) / (chunk_size st - overlap_size st) + 1).
Proof.
  intros Hstep Hmod Hoffs. unfold realtime_offsets in Hoffs. unfold Py.len at 1.
  rewrite (range_length _ _ _ _ Hoffs).
  set (step := chunk_size st - overlap_size st) in *.
  set (stop := Py.len w - chunk_size st) in *.
  assert (0 < step) as Hs by (unfold step; lia).
  pose proof (Z.div_mod stop step ltac:(lia)) as Hdm.
  pose proof (Z.mod_pos_bound stop step Hs) as Hb.
  unfold Py.range_len. destruct (Z.ltb_spec 0 step); [|lia].
  destruct (Z.ltb_spec 0 stop) as [Hpos|Hneg].
  - assert ((stop - 0 - 1) / step = stop / step) as ->.
    { symmetry. apply (Z.div_unique _ _ _ (stop mod step - 1)); lia. }
    assert (0 <= stop / step) by (apply Z.div_pos; lia). lia.
  - assert (stop <> 0) as Hnz.
    { intros E. apply Hmod. rewrite E. apply Z.mod_0_l. lia. }
    assert (stop / step < 0); [|lia].
    apply Z.div_lt_upper_bound; lia.
Qed.

Lemma window_count_off_grid_witness :
  Py.len [0; 2; 4] = Z.max 0 ((Py.len (Examples.loud 9) - 4) / (4 - 2) + 1).
Proof.
  apply (window_count_off_grid (init 4 2) (Examples.loud 9) [0; 2; 4]);
    [reflexivity|vm_compute; discriminate|reflexivity].
Defined.

Section WindowFacts.

Variable model : list Q -> list (list Q).
Variable _detect_speech_energy : list Q -> bool.

(** Every window the worker's loop cuts is a full chunk, so the guard of
    [process_audio_chunk] never applies inside the loop: the model is entered
    for every window that passes the gate. *)
Theorem windows_are_full_chunks (st : streamer) (w : list Q) (offs : list Z) (i : Z) :
  0 <= chunk_size st ->
  overlap_size st < chunk_size st ->
  realtime_offsets st w = Some offs ->
  In i offs ->
  Py.len (window w st i) = chunk_size st /\
  process_audio_chunk model st (window w st i)
  = (greedy_decode (model (window w st i)), log_model_call (window w st i) st).
Proof.
  intros Hc Hstep Hoffs Hin. unfold realtime_offsets in Hoffs.
  assert (0 < chunk_size st - overlap_size st) as Hs by lia.
  apply (range_pos_In _ _ _ i Hs Hoffs) in Hin as (k & Hk & Hi & Hlt).
  assert (Py.len (window w st i) = chunk_size st) as Hlen.
  { unfold window. apply slice_len_inside; nia. }
  split; [exact Hlen|]. apply process_full. lia.
Qed.

(** The loops raise the [ValueError] of [range] exactly when their step is
    zero: the worker when the overlap equals the chunk size, the batch mode
    when the chunk size is 0 or 1. *)
Theorem zero_step_raises (st : streamer) (w : list Q) :
  (_simulate_realtime_processing model _detect_speech_energy st w = None <->
   overlap_size st = chunk_size st) /\
  (process_uploaded_audio model _detect_speech_energy st w = None <-> 0 <= chunk_size st < 2).
Proof.
  split.
  - unfold _simulate_realtime_processing, realtime_offsets, Py.range.
    destruct (Z.eqb_spec (chunk_size st - overlap_size st) 0) as [E|E].
    + split; [lia|reflexivity].
    + split; [discriminate|lia].
  - unfold process_uploaded_audio, Py.range.
    destruct (Z.eqb_spec (chunk_size st / 2) 0) as [E|E].
    + split; [intros _|reflexivity].
      pose proof (Z.div_mod (chunk_size st) 2 ltac:(lia)).
      pose proof (Z.mod_pos_bound (chunk_size st) 2 ltac:(lia)). lia.
    + split.
      * destruct (fold_left _ _ _). discriminate.
      * intros H. exfalso. apply E. apply Z.div_small. exact H.
Qed.

(** A buffer no longer than one chunk gives nothing: the worker leaves the
    state as it is, without a call of the model, and the batch mode returns
    the empty list. *)
Theorem one_chunk_buffer_gives_nothing (st : streamer) (w : list Q) :
  Py.len w <= chunk_size st ->
  overlap_size st < chunk_size st ->
  2 <= chunk_size st ->
  _simulate_realtime_processing model _detect_speech_energy st w = Some st /\
  process_uploaded_audio model _detect_speech_energy st w = Some ([], st).
Proof.
  intros Hlen Hstep Hc.
  assert (forall step, 0 < step -> Py.range 0 (Py.len w - chunk_size st) step = Some []) as Hr.
  { intros step Hs. unfold Py.range, Py.range_len.
    destruct (Z.eqb_spec step 0); [lia|]. destruct (Z.ltb_spec 0 step); [|lia].
    destruct (Z.ltb_spec 0 (Py.len w - chunk_size st)); [lia|]. reflexivity. }
  split.
  - unfold _simulate_realtime_processing, realtime_offsets. rewrite Hr by lia. reflexivity.
  - unfold process_uploaded_audio. rewrite Hr; [reflexivity|].
    apply Z.div_str_pos. lia.
Qed.

End WindowFacts.

Lemma windows_are_full_chunks_witness :
  Py.len (window (Examples.loud 9) (init 4 2) 2) = chunk_size (init 4 2) /\
  process_audio_chunk Examples.hi_model (init 4 2) (window (Examples.loud 9) (init 4 2) 2)
  = (greedy_decode (Examples.hi_model (window (Examples.loud 9) (init 4 2) 2)),
     log_model_call (window (Examples.loud 9) (init 4 2) 2) (init 4 2)).
Proof.
  apply (windows_are_full_chunks Examples.hi_model (init 4 2) (Examples.loud 9) [0; 2; 4] 2).
  - vm_compute. discriminate.
  - reflexivity.
  - reflexivity.
  - cbn. tauto.
Defined.

Lemma one_chunk_buffer_gives_nothing_witness :
  _simulate_realtime_processing Examples.hi_model Examples.stub_gate Examples.small_streamer
      (Examples.loud 4)
  = Some Examples.small_streamer /\
  process_uploaded_audio Examples.hi_model Examples.stub_gate Examples.small_streamer
      (Examples.loud 4)
  = Some ([], Examples.small_streamer).
Proof.
  apply (one_chunk_buffer_gives_nothing Examples.hi_model Examples.stub_gate Examples.small_streamer
           (Examples.loud 4)); vm_compute; first [reflexivity | discriminate].
Defined.

(** ** The worker loop and the batch loop as a whole *)

Section WholeRuns.

Variable model : list Q -> list (list Q).
Variable _detect_speech_energy : list Q -> bool.

Lemma publications_le_dispatched (w : list Q) (st : streamer) (offs : list Z) :
  (length (publications model _detect_speech_energy w st offs) <= length (dispatched
      _detect_speech_energy w st offs))%nat.
Proof.
  induction offs as [|i rest IH]; [cbn; lia|].
  rewrite (publications_cons model _detect_speech_energy w st i rest), (dispatched_cons
      _detect_speech_energy w st i rest), !length_app.
  assert (length (publications model _detect_speech_energy w st [i]) <= length (dispatched
      _detect_speech_energy w st [i]))%nat; [|lia].
  unfold publications, dispatched. cbn [flat_map map List.filter]. rewrite app_nil_r.
  destruct (window_result model _detect_speech_energy w st i) as [t|] eqn:E; [|cbn; lia].
  apply window_result_Some in E as (Hg & Ht & Hs). rewrite Hg. cbn [andb].
  destruct (Z.leb_spec (chunk_size st) (Py.len (window w st i))) as [|Hshort]; [cbn; lia|].
  rewrite process_short in Ht by exact Hshort. subst t. discriminate.
Qed.

Lemma dispatched_le_offsets (w : list Q) (st : streamer) (offs : list Z) :
  (length (dispatched _detect_speech_energy w st offs) <= length offs)%nat.
Proof.
  unfold dispatched. rewrite <- (length_map (window w st) offs). apply filter_length_le.
Qed.

(** A worker that is not stopped processes every window: at the end the
    queue has grown by the texts of all windows that pass the gate and decode
    to a non-empty text, in the order of the offsets, the model was entered
    once for every full window that passes the gate, the configuration is
    unchanged and [is_streaming] is still set: the worker does not clear it
    when the input is exhausted. *)
Theorem worker_full_run (st : streamer) (w : list Q) (st' : streamer) :
  is_streaming st = true ->
  _simulate_realtime_processing model _detect_speech_energy st w = Some st' ->
  exists offs,
    realtime_offsets st w = Some offs /\
    result_queue st' = result_queue st ++ map snd (publications model _detect_speech_energy w st
        offs) /\
    model_calls st' = model_calls st ++ dispatched _detect_speech_energy w st offs /\
    is_streaming st' = true /\
    same_config st st'.
Proof.
  intros Hflag Hrun. apply simulate_inv in Hrun as (offs & Hoffs & ->).
  destruct (loop_running model _detect_speech_energy w offs st Hflag) as (Hc & Hf & _ & Hq & Hm).
  exists offs. tauto.
Qed.

(** A worker entered while [is_streaming] is false leaves at the first
    test of the flag: the state is returned as it is. *)
Theorem worker_not_started (st : streamer) (w : list Q) :
  is_streaming st = false ->
  overlap_size st <> chunk_size st ->
  _simulate_realtime_processing model _detect_speech_energy st w = Some st.
Proof.
  intros Hflag Hstep. unfold _simulate_realtime_processing, realtime_offsets.
  destruct (range_defined 0 (Py.len w - chunk_size st) (chunk_size st - overlap_size st))
    as [offs ->]; [lia|].
  rewrite (loop_stopped model _detect_speech_energy w offs st Hflag). reflexivity.
Qed.

(** Over a whole run of the worker, the model is entered only with chunks
    that the gate let through and that are at least one chunk long; there
    are at most as many calls as windows, and at most as many publications
    as calls. *)
Theorem model_called_only_on_speech (st : streamer) (w : list Q) (st' : streamer) :
  _simulate_realtime_processing model _detect_speech_energy st w = Some st' ->
  exists offs calls new,
    realtime_offsets st w = Some offs /\
    model_calls st' = model_calls st ++ calls /\
    publish_log st' = publish_log st ++ new /\
    Forall (fun chunk => _detect_speech_energy chunk = true /\
                         chunk_size st <= Py.len chunk /\
                         exists i, In i offs /\ chunk = window w st i) calls /\
    (length new <= length calls <= length offs)%nat.
Proof.
  intros Hrun. apply simulate_inv in Hrun as (offs & Hoffs & ->).
  exists offs. destruct (is_streaming st) eqn:Hflag.
  - destruct (loop_running model _detect_speech_energy w offs st Hflag) as (_ & _ & Hp & _ & Hm).
    exists (dispatched _detect_speech_energy w st offs), (publications model _detect_speech_energy
        w st offs).
    split; [exact Hoffs|]. split; [exact Hm|]. split; [exact Hp|]. split.
    + apply List.Forall_forall. intros chunk Hin.
      apply dispatched_In in Hin as (Hw & Hg & Hl). tauto.
    + split; [apply publications_le_dispatched|apply dispatched_le_offsets].
  - exists [], []. rewrite (loop_stopped model _detect_speech_energy w offs st Hflag), !app_nil_r.
    split; [exact Hoffs|]. repeat split; try constructor. cbn. lia.
Qed.

(** The list [process_uploaded_audio] returns: one entry per window, in the
    order of the offsets [k * (C // 2)] below [L - C], for the windows that
    pass the gate and decode to a non-empty text; the entry holds the offset
    divided by the sample rate and the text.  The result queue and
    [is_streaming] are not touched. *)
Theorem batch_results_spec (st : streamer) (w : list Q)
    (results : list (Q * string)) (st' : streamer) :
  process_uploaded_audio model _detect_speech_energy st w = Some (results, st') ->
  exists offs,
    Py.range 0 (Py.len w - chunk_size st) (chunk_size st / 2) = Some offs /\
    results = map (stamp st) (publications model _detect_speech_energy w st offs) /\
    Forall (fun r => exists i,
                In i offs /\
                fst r = (inject_Z i / inject_Z (sample_rate st))%Q /\
                _detect_speech_energy (window w st i) = true /\
                snd r = fst (process_audio_chunk model st (window w st i)) /\
                Py.strip (snd r) <> EmptyString) results /\
    model_calls st' = model_calls st ++ dispatched _detect_speech_energy w st offs /\
    result_queue st' = result_queue st /\
    is_streaming st' = is_streaming st.
Proof.
  unfold process_uploaded_audio.
  destruct (Py.range 0 (Py.len w - chunk_size st) (chunk_size st / 2)) as [offs|];
    [|discriminate].
  destruct (uploaded_fold model _detect_speech_energy w offs st []) as (st1 & -> & _ & Hm & Hq &
      Hf & _).
  intros [= <- <-]. exists offs. cbn [app].
  split; [reflexivity|]. split; [reflexivity|]. split; [|tauto].
  apply List.Forall_forall. intros r Hin. apply in_map_iff in Hin as (p & <- & Hp).
  apply publications_In in Hp as [Hi Hr].
  apply window_result_Some in Hr as (Hg & Ht & Hs). apply truthy_nonempty in Hs.
  exists (fst p). cbn [stamp fst snd]. tauto.
Qed.

(** The batch mode does not look at [is_streaming]: [stop_streaming] has no
    effect on the list it returns. *)
Theorem batch_ignores_stop (st : streamer) (w : list Q) (b : bool) :
  option_map fst (process_uploaded_audio model _detect_speech_energy (set_is_streaming b st) w)
  = option_map fst (process_uploaded_audio model _detect_speech_energy st w).
Proof.
  unfold process_uploaded_audio. cbn [chunk_size set_is_streaming].
  destruct (Py.range 0 (Py.len w - chunk_size st) (chunk_size st / 2)) as [offs|];
    [|reflexivity].
  destruct (uploaded_fold model _detect_speech_energy w offs st []) as (st1 & -> & _).
  destruct (uploaded_fold model _detect_speech_energy w offs (set_is_streaming b st) []) as (st2 &
      -> & _).
  cbn [option_map fst app]. f_equal.
  rewrite (publications_config model _detect_speech_energy w st (set_is_streaming b st) offs
      eq_refl).
  apply map_ext. intros p. apply stamp_config. reflexivity.
Qed.

(** When the step of the file mode equals the step of the batch mode
    ([C - O = C // 2], as in the default configuration), a worker that is not
    stopped publishes exactly the texts of the batch list, in the same order,
    and enters the model with the same chunks. *)
Theorem worker_and_batch_agree (st : streamer) (w : list Q)
    (st' : streamer) (results : list (Q * string)) (st'' : streamer) :
  is_streaming st = true ->
  chunk_size st - overlap_size st = chunk_size st / 2 ->
  _simulate_realtime_processing model _detect_speech_energy st w = Some st' ->
  process_uploaded_audio model _detect_speech_energy st w = Some (results, st'') ->
  result_queue st' = result_queue st ++ map snd results /\
  model_calls st' = model_calls st''.
Proof.
  intros Hflag Hstep Hrun Hbatch.
  apply simulate_inv in Hrun as (offs & Hoffs & ->).
  destruct (loop_running model _detect_speech_energy w offs st Hflag) as (_ & _ & _ & Hq & Hm).
  unfold process_uploaded_audio in Hbatch. unfold realtime_offsets in Hoffs.
  rewrite <- Hstep, Hoffs in Hbatch.
  destruct (uploaded_fold model _detect_speech_energy w offs st []) as (st1 & Hfold & _ & Hm' & _).
  rewrite Hfold in Hbatch. injection Hbatch as <- <-.
  cbn [app]. rewrite Hq, Hm, Hm', map_map. cbn [stamp snd]. split; reflexivity.
Qed.

End WholeRuns.

Lemma worker_full_run_witness :
  exists offs,
    realtime_offsets Examples.small_streamer (Examples.loud 7) = Some offs /\
    result_queue (realtime_loop Examples.hi_model Examples.stub_gate (Examples.loud 7) [0; 2]
        Examples.small_streamer)
    = result_queue Examples.small_streamer
      ++ map snd (publications Examples.hi_model Examples.stub_gate (Examples.loud 7)
          Examples.small_streamer offs) /\
    model_calls (realtime_loop Examples.hi_model Examples.stub_gate (Examples.loud 7) [0; 2]
        Examples.small_streamer)
    = model_calls Examples.small_streamer
      ++ dispatched Examples.stub_gate (Examples.loud 7) Examples.small_streamer offs /\
    is_streaming (realtime_loop Examples.hi_model Examples.stub_gate (Examples.loud 7) [0; 2]
        Examples.small_streamer)
    = true /\
    same_config Examples.small_streamer
      (realtime_loop Examples.hi_model Examples.stub_gate (Examples.loud 7) [0; 2]
          Examples.small_streamer).
Proof.
  apply (worker_full_run Examples.hi_model Examples.stub_gate Examples.small_streamer
      (Examples.loud 7));
    vm_compute; reflexivity.
Defined.

Lemma worker_not_started_witness :
  _simulate_realtime_processing Examples.hi_model Examples.stub_gate (init 4 2) (Examples.loud 7)
  = Some (init 4 2).
Proof.
  apply (worker_not_started Examples.hi_model Examples.stub_gate (init 4 2) (Examples.loud 7));
    [reflexivity|vm_compute; discriminate].
Defined.

Lemma model_called_only_on_speech_witness :
  exists offs calls new,
    realtime_offsets Examples.small_streamer (Examples.loud 7) = Some offs /\
    model_calls (realtime_loop Examples.hi_model Examples.stub_gate (Examples.loud 7) [0; 2]
        Examples.small_streamer)
    = model_calls Examples.small_streamer ++ calls /\
    publish_log (realtime_loop Examples.hi_model Examples.stub_gate (Examples.loud 7) [0; 2]
        Examples.small_streamer)
    = publish_log Examples.small_streamer ++ new /\
    Forall (fun chunk => Examples.stub_gate chunk = true /\
                         chunk_size Examples.small_streamer <= Py.len chunk /\
                         exists i, In i offs /\ chunk = window (Examples.loud 7)
                                                          Examples.small_streamer i) calls /\
    (length new <= length calls <= length offs)%nat.
Proof.
  apply (model_called_only_on_speech Examples.hi_model Examples.stub_gate Examples.small_streamer
      (Examples.loud 7)).
  vm_compute. reflexivity.
Defined.

Lemma batch_results_spec_witness :
  let run := fold_left (uploaded_body Examples.hi_model Examples.stub_gate (Examples.loud 7)) [0; 2]
                       (Examples.small_streamer, []) in
  exists offs,
    Py.range 0 (Py.len (Examples.loud 7) - 4) (4 / 2) = Some offs /\
    snd run = map (stamp Examples.small_streamer)
                  (publications Examples.hi_model Examples.stub_gate (Examples.loud 7)
                      Examples.small_streamer offs) /\
    Forall (fun r => exists i,
                In i offs /\
                fst r = (inject_Z i / inject_Z 16000)%Q /\
                Examples.stub_gate (window (Examples.loud 7) Examples.small_streamer i) = true /\
                snd r = fst (process_audio_chunk Examples.hi_model Examples.small_streamer
                               (window (Examples.loud 7) Examples.small_streamer i)) /\
                Py.strip (snd r) <> EmptyString) (snd run) /\
    model_calls (fst run)
    = model_calls Examples.small_streamer
      ++ dispatched Examples.stub_gate (Examples.loud 7) Examples.small_streamer offs /\
    result_queue (fst run) = result_queue Examples.small_streamer /\
    is_streaming (fst run) = is_streaming Examples.small_streamer.
Proof.
  intros run.
  apply (batch_results_spec Examples.hi_model Examples.stub_gate Examples.small_streamer
      (Examples.loud 7)
           (snd run) (fst run)).
  vm_compute. reflexivity.
Defined.

Lemma worker_and_batch_agree_witness :
  let run := fold_left (uploaded_body Examples.hi_model Examples.stub_gate (Examples.loud 7)) [0; 2]
                       (Examples.small_streamer, []) in
  result_queue (realtime_loop Examples.hi_model Examples.stub_gate (Examples.loud 7) [0; 2]
      Examples.small_streamer)
  = result_queue Examples.small_streamer ++ map snd (snd run) /\
  model_calls (realtime_loop Examples.hi_model Examples.stub_gate (Examples.loud 7) [0; 2]
      Examples.small_streamer)
  = model_calls (fst run).
Proof.
  intros run.
  apply (worker_and_batch_agree Examples.hi_model Examples.stub_gate Examples.small_streamer
      (Examples.loud 7)
           (realtime_loop Examples.hi_model Examples.stub_gate (Examples.loud 7) [0; 2]
               Examples.small_streamer)
           (snd run) (fst run)); vm_compute; reflexivity.
Defined.

(** ** The generator [process_from_microphone_data] and the data loop *)

Section Generator.

Variable model : list Q -> list (list Q).
Variable _detect_speech_energy : list Q -> bool.
Variable w : list Q.

(** One window of the generator's loop: either it yields the text of the
    window, or it goes on with the next offset; the model was entered if the
    window is a full chunk that passes the gate. *)
Lemma resume_cons (i : Z) (rest : list Z) (st : streamer) :
  exists st1,
    same_config st st1 /\
    is_streaming st1 = is_streaming st /\
    result_queue st1 = result_queue st /\
    model_calls st1 = model_calls st ++ dispatched _detect_speech_energy w st [i] /\
    microphone_resume model _detect_speech_energy w (i :: rest) st
    = match window_result model _detect_speech_energy w st i with
      | Some t => (Yield t, Suspended rest, st1)
      | None => microphone_resume model _detect_speech_energy w rest st1
      end.
Proof.
  unfold dispatched, window_result, window, process_audio_chunk, same_config.
  cbn [microphone_resume map List.filter]. unfold process_audio_chunk.
  destruct (_detect_speech_energy _); cbn [andb];
    [|exists st; rewrite !app_nil_r; tauto].
  rewrite Z.leb_antisym.
  destruct (Py.len _ <? chunk_size st);
    cbn [negb fst Py.strip Py.lstrip Py.rstrip truthy].
  - exists st. rewrite !app_nil_r. tauto.
  - eexists (log_model_call _ st). cbn [chunk_size overlap_size sample_rate is_streaming
      result_queue model_calls log_model_call].
    destruct (truthy _); tauto.
Qed.

Lemma take_suspended (offs : list Z) : forall (n : nat) (st : streamer),
  (length (publications model _detect_speech_energy w st offs) < n)%nat ->
  exists st',
    microphone_take model _detect_speech_energy n w (Suspended offs) st
    = (map snd (publications model _detect_speech_energy w st offs), Exhausted, st') /\
    same_config st st' /\
    is_streaming st' = is_streaming st /\
    result_queue st' = result_queue st /\
    model_calls st' = model_calls st ++ dispatched _detect_speech_energy w st offs.
Proof.
  induction offs as [|i rest IH]; intros n st Hn.
  - destruct n as [|n]; [cbn in Hn; lia|]. exists st.
    unfold same_config, dispatched. cbn. rewrite app_nil_r. tauto.
  - destruct n as [|n]; [lia|].
    destruct (resume_cons i rest st) as (st1 & (Hc & Ho & Hs) & Hf & Hq & Hm & Hres).
    rewrite (publications_cons model _detect_speech_energy w st i rest) in *.
    rewrite (dispatched_cons _detect_speech_energy w st i rest).
    rewrite <- (publications_config model _detect_speech_energy w st st1 rest Hc) in *.
    rewrite <- (dispatched_config _detect_speech_energy w st st1 rest Hc).
    cbn [microphone_take microphone_next]. rewrite Hres.
    unfold publications at 1 in Hn. unfold publications at 1.
    cbn [flat_map] in *. rewrite app_nil_r in *.
    destruct (window_result model _detect_speech_energy w st i) as [t|].
    + cbn [app length] in Hn.
      destruct (IH n st1 ltac:(lia)) as (st' & -> & (Hc' & Ho' & Hs') & Hf' & Hq' & Hm').
      exists st'. cbn [map snd app]. unfold same_config.
      rewrite Hm', Hm, <- app_assoc. repeat split; congruence.
    + cbn [app] in *.
      destruct (IH (S n) st1 Hn) as (st' & Htake & (Hc' & Ho' & Hs') & Hf' & Hq' & Hm').
      cbn [microphone_take microphone_next] in Htake. rewrite Htake.
      exists st'. unfold same_config.
      rewrite Hm', Hm, <- app_assoc. repeat split; congruence.
Qed.

(** Run to its end, the generator yields the texts of the windows at the
    offsets [k * (C // 2)] below [L - C] that pass the gate and decode to a
    non-empty text, in the order of the offsets.  It sets [is_streaming] and
    leaves it set, and it puts nothing on the result queue. *)
Theorem generator_yields_all (st : streamer) (offs : list Z) (n : nat) :
  Py.range 0 (Py.len w - chunk_size st) (chunk_size st / 2) = Some offs ->
  (length (publications model _detect_speech_energy w st offs) < n)%nat ->
  exists st',
    microphone_take model _detect_speech_energy n w Created st
    = (map snd (publications model _detect_speech_energy w st offs), Exhausted, st') /\
    is_streaming st' = true /\
    result_queue st' = result_queue st /\
    model_calls st' = model_calls st ++ dispatched _detect_speech_energy w st offs.
Proof.
  intros Hoffs Hn.
  set (st1 := set_is_streaming true st).
  assert (chunk_size st1 = chunk_size st) as Hc by reflexivity.
  rewrite <- (publications_config model _detect_speech_energy w st st1 offs Hc) in *.
  rewrite <- (dispatched_config _detect_speech_energy w st st1 offs Hc).
  destruct (take_suspended offs n st1 Hn) as (st' & Htake & _ & Hf & Hq & Hm).
  exists st'. split; [|tauto].
  destruct n as [|n]; [lia|]. cbn [microphone_take microphone_next] in *.
  fold st1. rewrite Hc, Hoffs. exact Htake.
Qed.



Lemma resume_config (offs : list Z) : forall st st2 : streamer,
  chunk_size st2 = chunk_size st ->
  fst (microphone_resume model _detect_speech_energy w offs st2) = fst (microphone_resume model
      _detect_speech_energy w offs st).
Proof.
  induction offs as [|i rest IH]; intros st st2 Hc; [reflexivity|].
  destruct (resume_cons i rest st) as (st1 & (Hc1 & _) & _ & _ & _ & ->).
  destruct (resume_cons i rest st2) as (st3 & (Hc3 & _) & _ & _ & _ & ->).
  rewrite (window_result_config model _detect_speech_energy w st st2 i Hc).
  destruct (window_result model _detect_speech_energy w st i); [reflexivity|].
  apply IH. congruence.
Qed.

(** The generator does not look at [is_streaming]: whatever the flag is,
    a call of [next] ends the same way and leaves the same generator, so
    [stop_streaming] does not stop it. *)
Theorem generator_ignores_stop (g : generator) (st : streamer) (b : bool) :
  fst (microphone_next model _detect_speech_energy w g (set_is_streaming b st))
  = fst (microphone_next model _detect_speech_energy w g st).
Proof.
  destruct g as [|pending|]; cbn [microphone_next].
  - cbn [chunk_size set_is_streaming].
    destruct (Py.range 0 (Py.len w - chunk_size st) (chunk_size st / 2)); [|reflexivity].
    apply resume_config. reflexivity.
  - apply resume_config. reflexivity.
  - reflexivity.
Qed.

(** The three surfaces that step by [C // 2] agree: the texts of the list
    of [process_uploaded_audio] are the texts that
    [_process_audio_loop_from_data] puts on the queue when it is not stopped,
    and the texts the generator yields. *)
Theorem buffer_modes_agree (st : streamer) (results : list (Q * string)) (st_b : streamer) :
  process_uploaded_audio model _detect_speech_energy st w = Some (results, st_b) ->
  (is_streaming st = true ->
   exists st', _process_audio_loop_from_data model _detect_speech_energy st w = Some st' /\
               result_queue st' = result_queue st ++ map snd results) /\
  (forall n, (length results < n)%nat ->
             fst (fst (microphone_take model _detect_speech_energy n w Created st)) = map snd
                 results).
Proof.
  intros Hbatch. unfold process_uploaded_audio in Hbatch.
  destruct (Py.range 0 (Py.len w - chunk_size st) (chunk_size st / 2)) as [offs|] eqn:Hoffs;
    [|discriminate].
  destruct (uploaded_fold model _detect_speech_energy w offs st []) as (st1 & Hfold & _).
  rewrite Hfold in Hbatch. injection Hbatch as <- <-.
  cbn [app]. rewrite map_map, length_map. cbn [stamp snd]. split.
  - intros Hflag. unfold _process_audio_loop_from_data. rewrite Hoffs.
    eexists. split; [reflexivity|].
    destruct (loop_running model _detect_speech_energy w offs st Hflag) as (_ & _ & _ & Hq & _).
        exact Hq.
  - intros n Hn. set (st0 := set_is_streaming true st).
    assert (chunk_size st0 = chunk_size st) as Hc by reflexivity.
    rewrite <- (publications_config model _detect_speech_energy w st st0 offs Hc) in *.
    destruct (take_suspended offs n st0 Hn) as (st' & Htake & _).
    destruct n as [|n]; [lia|]. cbn [microphone_take microphone_next] in *.
    fold st0. rewrite Hc, Hoffs, Htake. reflexivity.
Qed.

(** Only the caller writes [is_streaming]: over any run without a stop and
    without a start, the flag and the configuration are the same at the end,
    whatever the worker and the polls did.  In particular a worker that ran
    out of windows leaves the flag set. *)
Theorem worker_never_writes_flag (s : system) (tr : list event) (s' : system) :
  steps model _detect_speech_energy w s tr s' ->
  forallb (fun e => negb (is_start e) && negb (is_stop e)) tr = true ->
  is_streaming (obj s') = is_streaming (obj s) /\ same_config (obj s) (obj s').
Proof.
  intros Hsteps. induction Hsteps as [s|s e s1 tr s2 Hstep Hsteps IH]; intros Hev.
  - unfold same_config. tauto.
  - cbn [forallb] in Hev. apply andb_true_iff in Hev as [He Hev].
    destruct (IH Hev) as (Hf & Hc & Ho & Hs). unfold same_config.
    destruct Hstep as [st|st i rest Hfl|st i rest Hfl|st i rest|st p|st p|st p];
      cbn [obj] in *; try discriminate; try tauto.
    + destruct (body_config model _detect_speech_energy w st i) as [(Hc' & Ho' & Hs') Hf'].
      repeat split; congruence.
    + destruct (poll_fields st) as ((Hc' & Ho' & Hs') & Hf' & _).
      repeat split; congruence.
Qed.

End Generator.

Lemma generator_yields_all_witness :
  exists st',
    microphone_take Examples.hi_model Examples.stub_gate 3 (Examples.loud 7) Created (init 4 2)
    = (map snd (publications Examples.hi_model Examples.stub_gate (Examples.loud 7) (init 4 2) [0;
        2]),
       Exhausted, st') /\
    is_streaming st' = true /\
    result_queue st' = result_queue (init 4 2) /\
    model_calls st' = model_calls (init 4 2) ++ dispatched Examples.stub_gate (Examples.loud 7)
        (init 4 2) [0; 2].
Proof.
  apply (generator_yields_all Examples.hi_model Examples.stub_gate (Examples.loud 7) (init 4 2)
      [0; 2] 3).
  - reflexivity.
  - vm_compute. lia.
Defined.


Lemma buffer_modes_agree_witness :
  let run := fold_left (uploaded_body Examples.hi_model Examples.stub_gate (Examples.loud 7)) [0; 2]
                       (Examples.small_streamer, []) in
  (is_streaming Examples.small_streamer = true ->
   exists st', _process_audio_loop_from_data Examples.hi_model Examples.stub_gate
       Examples.small_streamer
                 (Examples.loud 7) = Some st' /\
               result_queue st' = result_queue Examples.small_streamer ++ map snd (snd run)) /\
  (forall n, (length (snd run) < n)%nat ->
             fst (fst (microphone_take Examples.hi_model Examples.stub_gate n (Examples.loud 7)
                 Created
                         Examples.small_streamer)) = map snd (snd run)).
Proof.
  intros run.
  apply (buffer_modes_agree Examples.hi_model Examples.stub_gate (Examples.loud 7)
      Examples.small_streamer
           (snd run) (fst run)).
  vm_compute. reflexivity.
Defined.

Lemma worker_never_writes_flag_witness :
  let w := Examples.loud 7 in
  let s := System Examples.small_streamer (AtTop [0]) in
  let s' := System (realtime_body Examples.hi_model Examples.stub_gate w Examples.small_streamer
      0) Finished in
  is_streaming (obj s') = is_streaming (obj s) /\ same_config (obj s) (obj s').
Proof.
  intros w s s'.
  apply (worker_never_writes_flag Examples.hi_model Examples.stub_gate w s [WEnter 0; WBody 0;
      WExit] s').
  - eapply steps_cons; [apply step_enter; reflexivity|].
    eapply steps_cons; [apply step_body|].
    eapply steps_cons; [apply step_exhausted|apply steps_nil].
  - reflexivity.
Defined.

(** ** The dataset samples, [collate_fn] and the targets of [train_epoch] *)

Import Training.

Lemma fold_max_ge (l : list Z) : forall a : Z,
  a <= fold_left Z.max l a /\ Forall (fun x => x <= fold_left Z.max l a) l.
Proof.
  induction l as [|x l IH]; intros a; cbn [fold_left]; [split; [lia|constructor]|].
  destruct (IH (Z.max a x)) as [H1 H2]. split; [lia|].
  constructor; [lia|exact H2].
Qed.

Lemma max_len_bound {A} (rows : list (list A)) (m : Z) :
  max_len rows = Some m -> Forall (fun row => Py.len row <= m) rows.
Proof.
  destruct rows as [|r rs]; [discriminate|]. cbn [max_len]. intros [= <-].
  destruct (fold_max_ge (map Py.len rs) (Py.len r)) as [H1 H2].
  constructor; [exact H1|].
  apply List.Forall_forall. intros row Hin. rewrite List.Forall_forall in H2.
  apply H2, in_map, Hin.
Qed.

Lemma pad_len {A} (zero : A) (n : Z) (row : list A) :
  Py.len row <= n -> Py.len (pad zero n row) = n.
Proof.
  intros H. unfold pad, Py.len in *. rewrite length_app, repeat_length. lia.
Qed.

Lemma Forall2_map_r {A B} (P : A -> B -> Prop) (f : A -> B) (l : list A) :
  Forall (fun x => P x (f x)) l -> Forall2 P l (map f l).
Proof. induction 1; cbn [map]; constructor; assumption. Qed.

(** [collate_fn] raises exactly on the empty batch. *)
Theorem collate_empty (batch : list sample) : collate_fn batch = None <-> batch = [].
Proof.
  unfold collate_fn. destruct batch as [|s batch]; cbn [map max_len]; split;
    try reflexivity; discriminate.
Qed.

(** [collate_fn] keeps the samples in order and pads them with zeros at the
    end: all waveform rows have the length of the longest waveform, all label
    rows the length of the longest label sequence, every row starts with the
    data of its sample and goes on with zeros only, and the transcripts are
    returned as they are. *)
Theorem collate_shape (batch : list sample)
    (waveforms : list (list Q)) (labels : list (list Z)) (transcripts : list string) :
  collate_fn batch = Some (waveforms, labels, transcripts) ->
  exists max_waveform_len max_label_len,
    max_len (map (fun s => fst (fst s)) batch) = Some max_waveform_len /\
    max_len (map (fun s => snd (fst s)) batch) = Some max_label_len /\
    Forall2 (fun s row => Py.len row = max_waveform_len /\
                          exists k, row = fst (fst s) ++ repeat 0%Q k) batch waveforms /\
    Forall2 (fun s row => Py.len row = max_label_len /\
                          exists k, row = snd (fst s) ++ repeat 0 k) batch labels /\
    transcripts = map snd batch.
Proof.
  unfold collate_fn.
  destruct (max_len (map (fun s => fst (fst s)) batch)) as [mw|] eqn:Hw; [|discriminate].
  destruct (max_len (map (fun s => snd (fst s)) batch)) as [ml|] eqn:Hl; [|discriminate].
  intros [= <- <- <-]. exists mw, ml. split; [reflexivity|]. split; [reflexivity|].
  apply max_len_bound in Hw, Hl. rewrite List.Forall_forall in Hw, Hl.
  split; [|split; [|reflexivity]].
  - rewrite map_map. apply Forall2_map_r, List.Forall_forall. intros s Hs. split.
    + apply pad_len, Hw. apply (in_map (fun s => fst (fst s))), Hs.
    + eexists. reflexivity.
  - rewrite map_map. apply Forall2_map_r, List.Forall_forall. intros s Hs. split.
    + apply pad_len, Hl. apply (in_map (fun s => snd (fst s))), Hs.
    + eexists. reflexivity.
Qed.

Lemma collate_shape_witness :
  exists max_waveform_len max_label_len,
    max_len (map (fun s => fst (fst s))
               [getitem 3 (Examples.loud 5) "A B"; getitem 3 (Examples.loud 2) "HI"])
    = Some max_waveform_len /\
    max_len (map (fun s => snd (fst s))
               [getitem 3 (Examples.loud 5) "A B"; getitem 3 (Examples.loud 2) "HI"])
    = Some max_label_len /\
    Forall2 (fun s row => Py.len row = max_waveform_len /\
                          exists k, row = fst (fst s) ++ repeat 0%Q k)
            [getitem 3 (Examples.loud 5) "A B"; getitem 3 (Examples.loud 2) "HI"]
            [[1; 1; 1]; [1; 1; 0]]%Q /\
    Forall2 (fun s row => Py.len row = max_label_len /\
                          exists k, row = snd (fst s) ++ repeat 0 k)
            [getitem 3 (Examples.loud 5) "A B"; getitem 3 (Examples.loud 2) "HI"]
            [[1; 0; 2]; [8; 9; 0]] /\
    ["A B"%string; "HI"%string] = map snd
            [getitem 3 (Examples.loud 5) "A B"; getitem 3 (Examples.loud 2) "HI"].
Proof.
  apply (collate_shape
           [getitem 3 (Examples.loud 5) "A B"; getitem 3 (Examples.loud 2) "HI"]
           [[1; 1; 1]; [1; 1; 0]]%Q [[1; 0; 2]; [8; 9; 0]] ["A B"%string; "HI"%string]).
  vm_compute. reflexivity.
Defined.

Lemma labels_flat_acc (labels : list (list Z)) : forall acc : list Z,
  fold_left (fun acc label =>
               let valid_tokens := valid_tokens label in
               if 0 <? Py.len valid_tokens then acc ++ valid_tokens
               else acc ++ [0]) labels acc
  = acc ++ concat (map segment labels).
Proof.
  induction labels as [|label labels IH]; intros acc; cbn [fold_left map concat].
  - rewrite app_nil_r. reflexivity.
  - rewrite app_assoc. unfold segment at 1.
    destruct (0 <? Py.len (valid_tokens label)); apply IH.
Qed.

Lemma labels_flat_concat (labels : list (list Z)) :
  labels_flat labels = concat (map segment labels).
Proof. unfold labels_flat. rewrite labels_flat_acc. reflexivity. Qed.

Lemma segment_len (label : list Z) :
  Py.len (segment label) = Z.max 1 (count_nonzero label).
Proof.
  unfold segment, count_nonzero, valid_tokens.
  destruct (Z.ltb_spec 0 (Py.len (List.filter (fun x => negb (x =? 0)) label))) as [H|H].
  - lia.
  - unfold Py.len in *. cbn [length]. lia.
Qed.

Lemma len_app {A} (a b : list A) : Py.len (a ++ b) = Py.len a + Py.len b.
Proof. unfold Py.len. rewrite length_app. lia. Qed.

(** The targets handed to the CTC loss are consistent: [labels_flat] is the
    concatenation of one segment per row, the non-zero labels of the row or a
    single 0 when the row has none, and [target_lengths] holds the lengths of
    these segments; so the lengths add up to the length of [labels_flat]. *)
Theorem targets_consistent (labels : list (list Z)) :
  labels_flat labels = concat (map segment labels) /\
  target_lengths labels = map (fun label => Py.len (segment label)) labels /\
  total (target_lengths labels) = Py.len (labels_flat labels).
Proof.
  split; [apply labels_flat_concat|].
  assert (target_lengths labels = map (fun label => Py.len (segment label)) labels) as Ht.
  { unfold target_lengths. apply map_ext. intros label. symmetry. apply segment_len. }
  split; [exact Ht|]. rewrite Ht, labels_flat_concat.
  induction labels as [|label labels IH]; [reflexivity|].
  cbn [map concat total fold_right]. rewrite len_app. unfold total in IH.
  rewrite IH; [reflexivity|].
  unfold target_lengths. apply map_ext. intros l. symmetry. apply segment_len.
Qed.

Lemma valid_tokens_pad (n : Z) (row : list Z) :
  valid_tokens (pad 0 n row) = valid_tokens row.
Proof.
  unfold valid_tokens, pad. rewrite List.filter_app.
  assert (List.filter (fun x => negb (x =? 0)) (repeat 0 (Z.to_nat (n - Py.len row))) = []) as ->.
  { induction (Z.to_nat (n - Py.len row)) as [|k IH]; [reflexivity|]. cbn. exact IH. }
  apply app_nil_r.
Qed.

Lemma segment_pad (n : Z) (row : list Z) : segment (pad 0 n row) = segment row.
Proof. unfold segment. rewrite valid_tokens_pad. reflexivity. Qed.

(** The padding of [collate_fn] is invisible to the loss: the targets
    computed from the padded label rows are the targets of the labels of the
    samples. *)
Theorem padding_is_invisible (batch : list sample)
    (waveforms : list (list Q)) (labels : list (list Z)) (transcripts : list string) :
  collate_fn batch = Some (waveforms, labels, transcripts) ->
  labels_flat labels = labels_flat (map (fun s => snd (fst s)) batch) /\
  target_lengths labels = target_lengths (map (fun s => snd (fst s)) batch).
Proof.
  unfold collate_fn.
  destruct (max_len (map (fun s => fst (fst s)) batch)) as [mw|]; [|discriminate].
  destruct (max_len (map (fun s => snd (fst s)) batch)) as [ml|]; [|discriminate].
  intros [= <- <- <-]. split.
  - rewrite !labels_flat_concat, !map_map. f_equal. apply map_ext. intros s.
    apply segment_pad.
  - unfold target_lengths. rewrite !map_map. apply map_ext. intros s.
    unfold count_nonzero. fold (valid_tokens (pad 0 ml (snd (fst s)))).
    rewrite valid_tokens_pad. reflexivity.
Qed.

Lemma padding_is_invisible_witness :
  labels_flat [[1; 0; 2]; [8; 9; 0]]
  = labels_flat (map (fun s => snd (fst s))
                   [getitem 3 (Examples.loud 5) "A B"; getitem 3 (Examples.loud 2) "HI"]) /\
  target_lengths [[1; 0; 2]; [8; 9; 0]]
  = target_lengths (map (fun s => snd (fst s))
                      [getitem 3 (Examples.loud 5) "A B"; getitem 3 (Examples.loud 2) "HI"]).
Proof.
  apply (padding_is_invisible
           [getitem 3 (Examples.loud 5) "A B"; getitem 3 (Examples.loud 2) "HI"]
           [[1; 1; 1]; [1; 1; 0]]%Q [[1; 0; 2]; [8; 9; 0]] ["A B"%string; "HI"%string]).
  vm_compute. reflexivity.
Defined.

Lemma valid_tokens_encode_char (c : ascii) :
  valid_tokens [default space_idx (char_to_idx !! Py.upper_char c)]
  = encode (keep_letters (String (Py.upper_char c) EmptyString)).
Proof. ascii_cases c; vm_compute; reflexivity. Qed.

Lemma valid_tokens_app (a b : list Z) :
  valid_tokens (a ++ b) = valid_tokens a ++ valid_tokens b.
Proof. unfold valid_tokens. apply List.filter_app. Qed.

Lemma encode_app (s t : string) : encode (s +:+ t) = encode s ++ encode t.
Proof.
  induction s as [|c s IH]; [reflexivity|].
  rewrite append_cons, !encode_cons, IH. reflexivity.
Qed.

Lemma valid_tokens_encode (text : string) :
  valid_tokens (encode text) = encode (keep_letters (Py.upper text)).
Proof.
  induction text as [|c text IH]; [reflexivity|].
  rewrite encode_cons. change (?x :: encode text) with ([x] ++ encode text).
  rewrite valid_tokens_app, IH, valid_tokens_encode_char.
  cbn [Py.upper keep_letters].
  destruct (is_letter (Py.upper_char c)); [|reflexivity].
  change (String (Py.upper_char c) (keep_letters (Py.upper text)))
    with (String (Py.upper_char c) EmptyString +:+ keep_letters (Py.upper text)).
  rewrite encode_app. reflexivity.
Qed.

Lemma decode_valid_tokens (indices : list Z) :
  decode (valid_tokens indices) = decode indices.
Proof.
  induction indices as [|i l IH]; [reflexivity|].
  unfold valid_tokens in *. cbn [List.filter].
  destruct (Z.eqb_spec i 0) as [->|Hne]; cbn [negb].
  - rewrite IH. rewrite (decode_cons 0 l). reflexivity.
  - rewrite (decode_cons i l), (decode_cons i (List.filter _ l)), IH. reflexivity.
Qed.

(** The spaces of a transcript never reach the loss: for an ASCII
    transcript, the segment of targets built from its labels holds the labels
    of its letters and apostrophes only, and it decodes to the upper-cased
    transcript without its spaces and unknown characters. *)
Theorem targets_drop_spaces (transcript : string) :
  Py.ascii_text transcript = true ->
  valid_tokens (encode transcript) = encode (keep_letters (Py.upper transcript)) /\
  Forall (fun idx => is_letter_idx idx = true) (valid_tokens (encode transcript)) /\
  decode (segment (encode transcript)) = keep_letters (Py.upper transcript).
Proof.
  intros _. split; [apply valid_tokens_encode|]. split.
  - induction transcript as [|c text IH]; [constructor|].
    rewrite encode_cons. change (?x :: encode text) with ([x] ++ encode text).
    rewrite valid_tokens_app. apply Forall_app. split; [|exact IH].
    clear IH. ascii_cases c; vm_compute; repeat constructor.
  - unfold segment.
    destruct (Z.ltb_spec 0 (Py.len (valid_tokens (encode transcript)))) as [H|H].
    + rewrite decode_valid_tokens. apply decode_encode_keep.
    + rewrite <- decode_encode_keep, <- (decode_valid_tokens (encode transcript)).
      destruct (valid_tokens (encode transcript)); [vm_compute; reflexivity|].
      unfold Py.len in H. cbn [length] in H. lia.
Qed.

Lemma targets_drop_spaces_witness :
  valid_tokens (encode "a b") = encode (keep_letters (Py.upper "a b")) /\
  Forall (fun idx => is_letter_idx idx = true) (valid_tokens (encode "a b")) /\
  decode (segment (encode "a b")) = keep_letters (Py.upper "a b").
Proof. apply (targets_drop_spaces "a b"). reflexivity. Defined.

(** [__getitem__] cuts the waveform to its first [max_length] samples, and
    leaves a shorter waveform as it is; the labels are the encoding of the
    transcript. *)
Theorem getitem_truncates (max_length : Z) (waveform : list Q) (transcript : string) :
  0 <= max_length ->
  fst (fst (getitem max_length waveform transcript))
  = firstn (Z.to_nat max_length) waveform /\
  Py.len (fst (fst (getitem max_length waveform transcript)))
  = Z.min (Py.len waveform) max_length /\
  snd (fst (getitem max_length waveform transcript)) = encode transcript.
Proof.
  intros Hm. unfold getitem. cbn [fst snd].
  assert ((if max_length <? Py.len waveform
           then Py.slice waveform 0 max_length else waveform)
          = firstn (Z.to_nat max_length) waveform) as ->.
  { destruct (Z.ltb_spec max_length (Py.len waveform)) as [H|H].
    - unfold Py.slice, Py.clamp_index.
      destruct (Z.ltb_spec 0 0); [lia|].
      destruct (Z.ltb_spec max_length 0); [lia|].
      assert (0 <= Py.len waveform) by (unfold Py.len; lia).
      replace (Z.to_nat (Z.max 0 (Z.min (Py.len waveform) 0))) with 0%nat by lia.
      cbn [skipn]. f_equal. lia.
    - symmetry. apply firstn_all2. unfold Py.len in H. lia. }
  split; [reflexivity|]. split; [|reflexivity].
  unfold Py.len. rewrite length_firstn. lia.
Qed.

Lemma getitem_truncates_witness :
  fst (fst (getitem 3 (Examples.loud 5) "HI")) = firstn (Z.to_nat 3) (Examples.loud 5) /\
  Py.len (fst (fst (getitem 3 (Examples.loud 5) "HI")))
  = Z.min (Py.len (Examples.loud 5)) 3 /\
  snd (fst (getitem 3 (Examples.loud 5) "HI")) = encode "HI".
Proof. apply (getitem_truncates 3 (Examples.loud 5) "HI"). vm_compute. discriminate. Defined.
